(** * python-service-template: request pipeline and health probes

    A shallow embedding of the FastAPI service skeleton:
    [src/api/health.py], [src/core/middleware.py], [src/core/logging.py],
    [src/db/session.py], [src/db/redis.py], the middleware stack and the
    lifespan of [src/main.py], the in-memory [ExampleService] of
    [src/services/example.py] and the origin parser of
    [src/core/config.py].

    Handlers are coroutines reading clocks, a context variable, the log
    sink and the outcome of I/O probes; they are written here in a state
    and exception monad [M] over a record [World] holding exactly that
    ambient state. *)

From Stdlib Require Import String Ascii ZArith NArith QArith Lia.
From stdpp Require Import base option list strings pretty gmap.

Local Open Scope string_scope.
Local Open Scope Z_scope.

(** ** Python values *)

(** Python floats are kept abstract: the code only subtracts two
    [time.perf_counter()] readings, multiplies by the integer [1000] and
    calls [round(x, 2)]. *)
Class PyFloat := {
  float : Type;
  float_sub : float -> float -> float;
  float_mul_int : float -> Z -> float;
  float_round : float -> Z -> float;
}.

(** Exact rational arithmetic, to run the model on concrete inputs.
    It agrees with Python's floats where the difference, the product
    and the rounding to two digits are exact, as they are for the
    clock readings used below, which are small integers. It is not
    binary64 arithmetic: [round(2.675, 2)] is [2.67] in Python, where
    the float nearest to 2.675 lies below it, and [2.68] here. The
    theorems are stated for every instance of [PyFloat]. *)
Definition round_half_even (q : Q) : Z :=
  let fl := (Qnum q / Z.pos (Qden q))%Z in
  let twice_rest := (2 * (Qnum q - fl * Z.pos (Qden q)))%Z in
  match (twice_rest ?= Z.pos (Qden q))%Z with
  | Lt => fl
  | Gt => (fl + 1)%Z
  | Eq => if Z.even fl then fl else (fl + 1)%Z
  end.

Definition Q_round (q : Q) (ndigits : Z) : Q :=
  let scale := (10 ^ ndigits)%Z in
  Qred (Qmake (round_half_even (Qmult q (inject_Z scale))) (Z.to_pos scale)).

#[export] Instance Q_float : PyFloat := {|
  float := Q;
  float_sub := fun a b => Qred (Qminus a b);
  float_mul_int := fun a k => Qred (Qmult a (inject_Z k));
  float_round := Q_round;
|}.

(** [str.lower()] on the ASCII range, which is all that header names use. *)
Definition ascii_lower (c : ascii) : ascii :=
  let n := nat_of_ascii c in
  if (65 <=? n)%nat && (n <=? 90)%nat then ascii_of_nat (n + 32) else c.

Fixpoint lower (s : string) : string :=
  match s with
  | EmptyString => EmptyString
  | String c t => String (ascii_lower c) (lower t)
  end.

(** [s.startswith(p)] *)
Definition startswith (s p : string) : bool := String.prefix p s.

(** Truthiness of a [str]: only the empty string is falsy. *)
Definition truthy (s : string) : bool := negb (bool_decide (s = "")).

(** [a or b] where [a : str | None] and [b] is a computation producing a
    [str]; [b] is evaluated only when [a] is falsy. *)
Definition or_else {T : Type} (a : option string) (b : T) (k : string -> T) : T :=
  match a with
  | Some v => if truthy v then k v else b
  | None => b
  end.

(** *** [uuid.uuid4()] and [str(UUID)]

    [uuid4()] draws 16 random bytes, reads them as a 128-bit big-endian
    integer and stamps the RFC 4122 variant and version 4 bits; [str]
    prints 32 lower-case hex digits grouped 8-4-4-4-12. *)
Definition hex_char (d : N) : ascii :=
  match d with
  | 0%N => "0" | 1%N => "1" | 2%N => "2" | 3%N => "3"
  | 4%N => "4" | 5%N => "5" | 6%N => "6" | 7%N => "7"
  | 8%N => "8" | 9%N => "9" | 10%N => "a" | 11%N => "b"
  | 12%N => "c" | 13%N => "d" | 14%N => "e" | _ => "f"
  end%char.

Fixpoint hex_digits (k : nat) (n : N) (acc : string) : string :=
  match k with
  | O => acc
  | S k' => hex_digits k' (N.div n 16) (String (hex_char (N.modulo n 16)) acc)
  end.

Definition uuid4_int (random_bytes : N) : N :=
  let i := N.modulo random_bytes (2 ^ 128) in
  let i := N.ldiff i (N.shiftl 0xc000 48) in
  let i := N.lor i (N.shiftl 0x8000 48) in
  let i := N.ldiff i (N.shiftl 0xf000 64) in
  N.lor i (N.shiftl 4 76).

Definition uuid_str (i : N) : string :=
  let hex := hex_digits 32 i "" in
  substring 0 8 hex ++ "-" ++ substring 8 4 hex ++ "-" ++ substring 12 4 hex
    ++ "-" ++ substring 16 4 hex ++ "-" ++ substring 20 12 hex.

Definition str_uuid4 (random_bytes : N) : string := uuid_str (uuid4_int random_bytes).

(** ** Exceptions, log events, HTTP objects *)

(** A raised exception object: its class name, [str(e)], the
    [status_code] attribute that [HTTPException] and [AppException]
    carry, and [isinstance(e, Exception)]. Every exception derives from
    [BaseException]; [asyncio.CancelledError], [KeyboardInterrupt],
    [SystemExit] and [GeneratorExit] do not derive from [Exception]. *)
Record Exception := {
  exc_class : string;
  exc_str : string;
  exc_status_code : option Z;
  isinstance_Exception : bool;
}.

(** [asyncio.CancelledError()], raised inside a coroutine whose task is
    cancelled while it awaits. *)
Definition CancelledError : Exception :=
  {| exc_class := "CancelledError"; exc_str := ""; exc_status_code := None;
     isinstance_Exception := false |}.

Inductive Result (A : Type) :=
| Ok (a : A)
| Raised (e : Exception).
Arguments Ok {A} a.
Arguments Raised {A} e.

(** Outcome of an awaited I/O call that returns nothing of interest. *)
Definition Outcome := Result unit.

Inductive LogValue `{PyFloat} :=
| LStr (s : string)
| LInt (n : Z)
| LFloat (x : float)
| LNone.

(** One call [logger.<level>(event, **fields)]. *)
Record LogEvent `{PyFloat} := {
  log_level : string;
  log_event : string;
  log_fields : list (string * LogValue);
}.

(** Raw header list, in wire order. *)
Definition HeaderList := list (string * string).

(** [starlette.requests.Request], the attributes the middleware reads. *)
Record Request := {
  req_method : string;
  req_url_path : string;
  req_headers : HeaderList;
  req_client : option (string * Z);
}.

(** ASGI event dictionary; [msg_headers] is [None] when the ["headers"]
    key is missing, and [msg_more_body] is [message.get("more_body",
    False)]. *)
Record Message := {
  msg_type : string;
  msg_status : Z;
  msg_headers : option HeaderList;
  msg_body : string;
  msg_more_body : bool;
}.

(** [starlette.responses.Response]. [status_code] is [None] on the
    response object FastAPI injects into an endpoint until the endpoint
    assigns it. The response that [BaseHTTPMiddleware.call_next] returns
    is a streaming one: it has no [body], and [body_iterator] holds the
    events still waiting in the stream between the wrapped application
    and the middleware, from which its [body_stream] generator draws the
    chunks. A response with a [body] has no iterator. *)
Record Response := {
  status_code : option Z;
  headers : HeaderList;
  body : string;
  body_iterator : option (list Message);
}.

(** [Headers.get(key)]: first entry whose name equals [key.lower()]. *)
Fixpoint headers_lookup (l : HeaderList) (get_key : string) : option string :=
  match l with
  | [] => None
  | (k, v) :: t => if bool_decide (k = get_key) then Some v else headers_lookup t get_key
  end.

Definition headers_get (l : HeaderList) (key : string) : option string :=
  headers_lookup l (lower key).

(** [MutableHeaders.__setitem__]: overwrite the first entry of that name
    and delete the later ones, or append when there is none. *)
Fixpoint headers_replace (l : HeaderList) (set_key set_value : string) : HeaderList :=
  match l with
  | [] => []
  | (k, v) :: t =>
      if bool_decide (k = set_key)
      then (set_key, set_value) :: filter (fun p => p.1 ≠ set_key) t
      else (k, v) :: headers_replace t set_key set_value
  end.

Definition headers_setitem (l : HeaderList) (key value : string) : HeaderList :=
  let set_key := lower key in
  match headers_lookup l set_key with
  | Some _ => headers_replace l set_key value
  | None => (l ++ [(set_key, value)])%list
  end.

(** ASGI [scope] dictionary of one connection. *)
Record Scope := {
  scope_type : string;
  scope_method : string;
  scope_path : string;
  scope_headers : HeaderList;
  scope_client : option (string * Z);
}.

(** ** The ambient state of the process *)

Section Runtime.
Context `{PyFloat}.

Record World := {
  (** [settings.version] *)
  settings_version : string;
  (** successive readings of [time.perf_counter()] *)
  perf_clock : nat -> float;
  perf_reads : nat;
  (** successive values of [datetime.now(timezone.utc).isoformat()] *)
  wall_clock : nat -> string;
  wall_reads : nat;
  (** successive 16-byte draws of [os.urandom] behind [uuid4()] *)
  urandom : nat -> N;
  urandom_reads : nat;
  (** [correlation_id_ctx], the context variable of the running task *)
  correlation_id_ctx : string;
  (** events handed to the structured logger, oldest first *)
  log : list LogEvent;
  (** module global [redis_pool] (the URL the pool was built from) *)
  redis_pool : option string;
  (** outcome of [async with engine.begin() as conn: await conn.execute(text("SELECT 1"))] *)
  db_select_1 : Outcome;
  (** outcome of [await client.ping()] and of [await client.aclose()] *)
  redis_ping : Outcome;
  redis_aclose : Outcome;
  (** trace of the component checkers awaited so far, oldest first *)
  checker_calls : list string;
  (** events handed to the server's [send], oldest first *)
  wire : list Message;
  (** the in-memory stream on which [BaseHTTPMiddleware.call_next]
      receives what the wrapped application sends *)
  stream : list Message;
}.

Definition with_perf_reads (n : nat) (w : World) : World :=
  {| settings_version := settings_version w; perf_clock := perf_clock w;
     perf_reads := n; wall_clock := wall_clock w; wall_reads := wall_reads w;
     urandom := urandom w; urandom_reads := urandom_reads w;
     correlation_id_ctx := correlation_id_ctx w; log := log w;
     redis_pool := redis_pool w; db_select_1 := db_select_1 w;
     redis_ping := redis_ping w; redis_aclose := redis_aclose w;
     checker_calls := checker_calls w; wire := wire w; stream := stream w |}.

Definition with_wall_reads (n : nat) (w : World) : World :=
  {| settings_version := settings_version w; perf_clock := perf_clock w;
     perf_reads := perf_reads w; wall_clock := wall_clock w; wall_reads := n;
     urandom := urandom w; urandom_reads := urandom_reads w;
     correlation_id_ctx := correlation_id_ctx w; log := log w;
     redis_pool := redis_pool w; db_select_1 := db_select_1 w;
     redis_ping := redis_ping w; redis_aclose := redis_aclose w;
     checker_calls := checker_calls w; wire := wire w; stream := stream w |}.

Definition with_urandom_reads (n : nat) (w : World) : World :=
  {| settings_version := settings_version w; perf_clock := perf_clock w;
     perf_reads := perf_reads w; wall_clock := wall_clock w; wall_reads := wall_reads w;
     urandom := urandom w; urandom_reads := n;
     correlation_id_ctx := correlation_id_ctx w; log := log w;
     redis_pool := redis_pool w; db_select_1 := db_select_1 w;
     redis_ping := redis_ping w; redis_aclose := redis_aclose w;
     checker_calls := checker_calls w; wire := wire w; stream := stream w |}.

Definition with_correlation_id_ctx (v : string) (w : World) : World :=
  {| settings_version := settings_version w; perf_clock := perf_clock w;
     perf_reads := perf_reads w; wall_clock := wall_clock w; wall_reads := wall_reads w;
     urandom := urandom w; urandom_reads := urandom_reads w;
     correlation_id_ctx := v; log := log w;
     redis_pool := redis_pool w; db_select_1 := db_select_1 w;
     redis_ping := redis_ping w; redis_aclose := redis_aclose w;
     checker_calls := checker_calls w; wire := wire w; stream := stream w |}.

Definition with_log (l : list LogEvent) (w : World) : World :=
  {| settings_version := settings_version w; perf_clock := perf_clock w;
     perf_reads := perf_reads w; wall_clock := wall_clock w; wall_reads := wall_reads w;
     urandom := urandom w; urandom_reads := urandom_reads w;
     correlation_id_ctx := correlation_id_ctx w; log := l;
     redis_pool := redis_pool w; db_select_1 := db_select_1 w;
     redis_ping := redis_ping w; redis_aclose := redis_aclose w;
     checker_calls := checker_calls w; wire := wire w; stream := stream w |}.

Definition with_checker_calls (l : list string) (w : World) : World :=
  {| settings_version := settings_version w; perf_clock := perf_clock w;
     perf_reads := perf_reads w; wall_clock := wall_clock w; wall_reads := wall_reads w;
     urandom := urandom w; urandom_reads := urandom_reads w;
     correlation_id_ctx := correlation_id_ctx w; log := log w;
     redis_pool := redis_pool w; db_select_1 := db_select_1 w;
     redis_ping := redis_ping w; redis_aclose := redis_aclose w;
     checker_calls := l; wire := wire w; stream := stream w |}.

Definition with_wire (l : list Message) (w : World) : World :=
  {| settings_version := settings_version w; perf_clock := perf_clock w;
     perf_reads := perf_reads w; wall_clock := wall_clock w; wall_reads := wall_reads w;
     urandom := urandom w; urandom_reads := urandom_reads w;
     correlation_id_ctx := correlation_id_ctx w; log := log w;
     redis_pool := redis_pool w; db_select_1 := db_select_1 w;
     redis_ping := redis_ping w; redis_aclose := redis_aclose w;
     checker_calls := checker_calls w; wire := l; stream := stream w |}.

Definition with_stream (l : list Message) (w : World) : World :=
  {| settings_version := settings_version w; perf_clock := perf_clock w;
     perf_reads := perf_reads w; wall_clock := wall_clock w; wall_reads := wall_reads w;
     urandom := urandom w; urandom_reads := urandom_reads w;
     correlation_id_ctx := correlation_id_ctx w; log := log w;
     redis_pool := redis_pool w; db_select_1 := db_select_1 w;
     redis_ping := redis_ping w; redis_aclose := redis_aclose w;
     checker_calls := checker_calls w; wire := wire w; stream := l |}.

(** The environment's side: what the next probes will find. *)
Definition with_db_select_1 (o : Outcome) (w : World) : World :=
  {| settings_version := settings_version w; perf_clock := perf_clock w;
     perf_reads := perf_reads w; wall_clock := wall_clock w; wall_reads := wall_reads w;
     urandom := urandom w; urandom_reads := urandom_reads w;
     correlation_id_ctx := correlation_id_ctx w; log := log w;
     redis_pool := redis_pool w; db_select_1 := o;
     redis_ping := redis_ping w; redis_aclose := redis_aclose w;
     checker_calls := checker_calls w; wire := wire w; stream := stream w |}.

Definition with_redis_ping (o : Outcome) (w : World) : World :=
  {| settings_version := settings_version w; perf_clock := perf_clock w;
     perf_reads := perf_reads w; wall_clock := wall_clock w; wall_reads := wall_reads w;
     urandom := urandom w; urandom_reads := urandom_reads w;
     correlation_id_ctx := correlation_id_ctx w; log := log w;
     redis_pool := redis_pool w; db_select_1 := db_select_1 w;
     redis_ping := o; redis_aclose := redis_aclose w;
     checker_calls := checker_calls w; wire := wire w; stream := stream w |}.

(** *** Coroutines: state passing with exceptions *)

Definition M (A : Type) : Type := World -> Result A * World.

Definition ret {A} (a : A) : M A := fun w => (Ok a, w).

Definition bind {A B} (m : M A) (k : A -> M B) : M B :=
  fun w =>
    match m w with
    | (Ok a, w') => k a w'
    | (Raised e, w') => (Raised e, w')
    end.

Definition raise {A} (e : Exception) : M A := fun w => (Raised e, w).

(** [try: body  except Exception as e: handler(e)]: an exception that
    is no instance of [Exception] is not caught. *)
Definition try_except {A} (body : M A) (handler : Exception -> M A) : M A :=
  fun w =>
    match body w with
    | (Ok a, w') => (Ok a, w')
    | (Raised e, w') =>
        if isinstance_Exception e then handler e w' else (Raised e, w')
    end.

(** An awaited I/O call whose outcome the environment decides. *)
Definition io (outcome : World -> Outcome) : M unit := fun w => (outcome w, w).

(** [time.perf_counter()] *)
Definition perf_counter : M float :=
  fun w => (Ok (perf_clock w (perf_reads w)), with_perf_reads (S (perf_reads w)) w).

(** [datetime.now(timezone.utc).isoformat()] *)
Definition now_isoformat : M string :=
  fun w => (Ok (wall_clock w (wall_reads w)), with_wall_reads (S (wall_reads w)) w).

(** [str(uuid4())] *)
Definition new_uuid4 : M string :=
  fun w => (Ok (str_uuid4 (urandom w (urandom_reads w))),
            with_urandom_reads (S (urandom_reads w)) w).

(** [correlation_id_ctx.set(v)] and [correlation_id_ctx.get()] *)
Definition ctx_set (v : string) : M unit :=
  fun w => (Ok tt, with_correlation_id_ctx v w).

Definition ctx_get : M string := fun w => (Ok (correlation_id_ctx w), w).

(** [logger.<level>(event, **fields)] *)
Definition logger_emit (level event : string) (fields : list (string * LogValue)) : M unit :=
  fun w => (Ok tt, with_log (log w ++ [{| log_level := level; log_event := event;
                                          log_fields := fields |}]) w).

Definition logger_info := logger_emit "info".
Definition logger_error := logger_emit "error".

Definition get_settings_version : M string := fun w => (Ok (settings_version w), w).

(** [await checker()], leaving the checker's name in the call trace. *)
Definition await_checker {A} (name : string) (checker : M A) : M A :=
  fun w => checker (with_checker_calls (checker_calls w ++ [name]) w).
End Runtime.

(** [M] with stdpp's monad notations: [x ← m; k], ['(a, b) ← m; k], [m ;; k]. *)
#[export] Instance M_ret `{PyFloat} : MRet M := @ret _.
#[export] Instance M_bind `{PyFloat} : MBind M := fun A B k m => bind m k.

(** ** Template variables

    The skeleton is a Jinja template; the blocks guarded by
    [values.database], [values.orm] and [values.cache] are present in
    the generated service exactly when the guard holds. *)
Record TemplateValues := {
  values_database : string;
  values_orm : string;
  values_cache : string;
}.

(** [values.database != "none" and values.orm != "none"] *)
Definition db_enabled (values : TemplateValues) : bool :=
  negb (bool_decide (values_database values = "none"))
  && negb (bool_decide (values_orm values = "none")).

(** [values.cache == "elasticache-redis"] *)
Definition redis_enabled (values : TemplateValues) : bool :=
  bool_decide (values_cache values = "elasticache-redis").

(** ** [src/api/health.py] *)
Module Health.

Inductive HealthStatus := HEALTHY | DEGRADED | UNHEALTHY.

#[export] Instance HealthStatus_eq_dec : EqDecision HealthStatus.
Proof. solve_decision. Defined.

(** The [str] value of the enum member. *)
Definition status_value (s : HealthStatus) : string :=
  match s with
  | HEALTHY => "healthy"
  | DEGRADED => "degraded"
  | UNHEALTHY => "unhealthy"
  end.

Definition HTTP_503_SERVICE_UNAVAILABLE : Z := 503.

Section WithFloat.
Context `{PyFloat}.

Record ComponentHealth := {
  status : HealthStatus;
  latency_ms : option float;
  message : option string;
}.

Record HealthResponse := {
  resp_status : HealthStatus;
  version : string;
  timestamp : string;
  components : option (gmap string ComponentHealth);
}.

(** The two names [health.py] imports from [src.db]. *)
Record Checkers := {
  check_db_health : M ComponentHealth;
  check_redis_health : M ComponentHealth;
}.

(** [response.status_code = code] *)
Definition set_status_code (code : Z) (response : Response) : Response :=
  {| status_code := Some code; headers := headers response; body := body response;
     body_iterator := body_iterator response |}.

Definition liveness : M HealthResponse :=
  v ← get_settings_version;
  ts ← now_isoformat;
  mret {| resp_status := HEALTHY; version := v; timestamp := ts; components := None |}.

Definition readiness (values : TemplateValues) (imports : Checkers)
    (response : Response) : M (HealthResponse * Response) :=
  let components : gmap string ComponentHealth := ∅ in
  let overall_status := HEALTHY in
  '(components, overall_status) ←
    (if db_enabled values then
       db_health ← await_checker "check_db_health" (check_db_health imports);
       let components := <["database" := db_health]> components in
       let overall_status :=
         if bool_decide (status db_health ≠ HEALTHY) then UNHEALTHY
         else overall_status in
       mret (components, overall_status)
     else mret (components, overall_status));
  '(components, overall_status) ←
    (if redis_enabled values then
       redis_health ← await_checker "check_redis_health" (check_redis_health imports);
       let components := <["redis" := redis_health]> components in
       let overall_status :=
         if bool_decide (status redis_health ≠ HEALTHY) then
           (if bool_decide (overall_status = HEALTHY) then DEGRADED
            else overall_status)
         else overall_status in
       mret (components, overall_status)
     else mret (components, overall_status));
  let response :=
    if bool_decide (overall_status ≠ HEALTHY)
    then set_status_code HTTP_503_SERVICE_UNAVAILABLE response
    else response in
  v ← get_settings_version;
  ts ← now_isoformat;
  mret ({| resp_status := overall_status; version := v; timestamp := ts;
           components := if bool_decide (size components = 0%nat) then None
                         else Some components |},
        response).

Definition startup (values : TemplateValues) (imports : Checkers)
    (response : Response) : M (HealthResponse * Response) :=
  readiness values imports response.

Definition health : M (gmap string string) :=
  v ← get_settings_version;
  ts ← now_isoformat;
  mret (<["status" := "healthy"]> (<["version" := v]> (<["timestamp" := ts]> ∅))).

(** *** How FastAPI serves these endpoints

    The endpoint's [response] parameter receives a fresh [Response]
    whose [status_code] is unset; the reply carries the code the
    endpoint assigned, or the route's default [200]. *)
Definition injected_response : Response :=
  {| status_code := None; headers := []; body := ""; body_iterator := None |}.

Definition reply_status (response : Response) : Z :=
  default 200 (status_code response).

Definition serve {A} (endpoint : M A) : M (Z * A) :=
  content ← endpoint; mret (reply_status injected_response, content).

Definition serve_with_response {A} (endpoint : Response -> M (A * Response))
    : M (Z * A) :=
  '(content, response) ← endpoint injected_response;
  mret (reply_status response, content).

Definition GET_health_live : M (Z * HealthResponse) := serve liveness.

Definition GET_health_ready values imports : M (Z * HealthResponse) :=
  serve_with_response (readiness values imports).

Definition GET_health_startup values imports : M (Z * HealthResponse) :=
  serve_with_response (startup values imports).

Definition GET_health : M (Z * gmap string string) := serve health.

(** A checker that reports a given result, as a test double would. *)
Definition reporting (c : ComponentHealth) : M ComponentHealth := mret c.

Definition reporting_checkers (db redis : ComponentHealth) : Checkers :=
  {| check_db_health := reporting db; check_redis_health := reporting redis |}.

(** The component names of the generated service. *)
Definition configured_components (values : TemplateValues) : gset string :=
  (if db_enabled values then {["database"]} else ∅)
  ∪ (if redis_enabled values then {["redis"]} else ∅).

(** The statuses the configured checkers report, in check order. *)
Definition reported_statuses (values : TemplateValues)
    (db redis : ComponentHealth) : list HealthStatus :=
  (if db_enabled values then [status db] else [])
  ++ (if redis_enabled values then [status redis] else []).
End WithFloat.

(** *** The aggregation rule as the specification words it

    Overall is [unhealthy] if any entry is [unhealthy]; else
    [degraded] if any entry is non-healthy; else [healthy]. *)
Definition spec_aggregate (reported : list HealthStatus) : HealthStatus :=
  if existsb (fun s => bool_decide (s = UNHEALTHY)) reported then UNHEALTHY
  else if existsb (fun s => bool_decide (s ≠ HEALTHY)) reported then DEGRADED
  else HEALTHY.

End Health.

(** ** [src/db/session.py] *)
Module Session.
Import Health.
Section WithFloat.
Context `{PyFloat}.

(** [async with engine.begin() as conn: await conn.execute(text("SELECT 1"))] *)
Definition select_1 : M unit := io db_select_1.

Definition check_db_health : M ComponentHealth :=
  start ← perf_counter;
  try_except
    (select_1;;
     now ← perf_counter;
     let latency := float_mul_int (float_sub now start) 1000 in
     mret {| status := HEALTHY; latency_ms := Some (float_round latency 2);
             message := None |})
    (fun e =>
     now ← perf_counter;
     let latency := float_mul_int (float_sub now start) 1000 in
     logger_error "database_health_check_failed" [("error", LStr (exc_str e))];;
     mret {| status := UNHEALTHY; latency_ms := Some (float_round latency 2);
             message := Some (exc_str e) |}).
End WithFloat.
End Session.

(** ** [src/db/redis.py] *)
Module Redis.
Import Health.
Section WithFloat.
Context `{PyFloat}.

Definition get_redis_pool : M (option string) := fun w => (Ok (redis_pool w), w).

(** [await client.ping()] and [await client.aclose()] *)
Definition client_ping : M unit := io redis_ping.
Definition client_aclose : M unit := io redis_aclose.

Definition check_redis_health : M ComponentHealth :=
  pool ← get_redis_pool;
  match pool with
  | None =>
      mret {| status := UNHEALTHY; latency_ms := None;
              message := Some "Redis pool not initialized" |}
  | Some _ =>
      start ← perf_counter;
      try_except
        (client_ping;;
         client_aclose;;
         now ← perf_counter;
         let latency := float_mul_int (float_sub now start) 1000 in
         mret {| status := HEALTHY; latency_ms := Some (float_round latency 2);
                 message := None |})
        (fun e =>
         now ← perf_counter;
         let latency := float_mul_int (float_sub now start) 1000 in
         logger_error "redis_health_check_failed" [("error", LStr (exc_str e))];;
         mret {| status := UNHEALTHY; latency_ms := Some (float_round latency 2);
                 message := Some (exc_str e) |})
  end.
End WithFloat.
End Redis.

(** ** [src/core/middleware.py] *)
Module Middleware.
Section WithFloat.
Context `{PyFloat}.

(** ASGI callables. [receive] is never used by this code and is
    left out. *)
Definition Send : Type := Message -> M unit.
Definition ASGIApp : Type := Scope -> Send -> M unit.

(** The [call_next] a [BaseHTTPMiddleware] hands to [dispatch]. *)
Definition CallNext : Type := Request -> M Response.

(** [response.headers[key] = value] *)
Definition set_header (key value : string) (response : Response) : Response :=
  {| status_code := status_code response;
     headers := headers_setitem (headers response) key value;
     body := body response;
     body_iterator := body_iterator response |}.
End WithFloat.

Module CorrelationIdMiddleware.
Definition HEADER_NAME : string := "X-Correlation-ID".

Section WithFloat.
Context `{PyFloat}.

Definition dispatch (request : Request) (call_next : CallNext) : M Response :=
  (* Get or generate correlation ID *)
  correlation_id ←
    or_else (headers_get (req_headers request) HEADER_NAME) new_uuid4 mret;
  ctx_set correlation_id;;
  response ← call_next request;
  mret (set_header HEADER_NAME correlation_id response).
End WithFloat.
End CorrelationIdMiddleware.

Module RequestLoggingMiddleware.
Section WithFloat.
Context `{PyFloat}.

Definition log_int (n : option Z) : LogValue :=
  match n with Some n => LInt n | None => LNone end.

(** [request.client.host if request.client else None] *)
Definition client_ip (request : Request) : LogValue :=
  match req_client request with
  | Some (host, _) => LStr host
  | None => LNone
  end.

Definition dispatch (request : Request) (call_next : CallNext) : M Response :=
  start_time ← perf_counter;
  response ← call_next request;
  now ← perf_counter;
  let duration_ms := float_mul_int (float_sub now start_time) 1000 in
  (* Skip logging health checks *)
  (if negb (startswith (req_url_path request) "/health") then
     logger_info "http_request"
       [("method", LStr (req_method request));
        ("path", LStr (req_url_path request));
        ("status_code", log_int (status_code response));
        ("duration_ms", LFloat (float_round duration_ms 2));
        ("client_ip", client_ip request)]
   else mret tt);;
  mret response.
End WithFloat.
End RequestLoggingMiddleware.

Module SecurityHeadersMiddleware.
Definition security_headers : HeaderList :=
  [("x-content-type-options", "nosniff");
   ("x-frame-options", "DENY");
   ("x-xss-protection", "1; mode=block");
   ("strict-transport-security", "max-age=31536000; includeSubDomains");
   ("cache-control", "no-store");
   ("content-security-policy", "default-src 'self'")].

(** [message["headers"] = list(message.get("headers", [])) + security_headers] *)
Definition add_security_headers (message : Message) : Message :=
  {| msg_type := msg_type message;
     msg_status := msg_status message;
     msg_headers := Some (default [] (msg_headers message) ++ security_headers)%list;
     msg_body := msg_body message;
     msg_more_body := msg_more_body message |}.

Section WithFloat.
Context `{PyFloat}.

Definition send_wrapper (send : Send) (message : Message) : M unit :=
  let message :=
    if bool_decide (msg_type message = "http.response.start")
    then add_security_headers message
    else message in
  send message.

(** [__call__] *)
Definition call (app : ASGIApp) : ASGIApp :=
  fun scope send =>
    if bool_decide (scope_type scope ≠ "http") then app scope send
    else app scope (send_wrapper send).
End WithFloat.
End SecurityHeadersMiddleware.
End Middleware.

(** ** [src/core/exceptions.py] and [src/api/v1/example.py] *)
Module Exceptions.
(** [NotFoundError(resource, resource_id)] *)
Definition NotFoundError (resource resource_id : string) : Exception :=
  {| exc_class := "NotFoundError";
     exc_str := resource ++ " with id '" ++ resource_id ++ "' not found";
     exc_status_code := Some 404;
     isinstance_Exception := true |}.
End Exceptions.

Module ExampleApi.
Section WithFloat.
Context `{PyFloat}.

(** [get_example]; [service_get] is [ExampleService.get] and the
    returned string the serialised [ExampleResponse]. *)
Definition get_example (service_get : string -> M (option string))
    (example_id : string) : M string :=
  result ← service_get example_id;
  match result with
  | None => raise (Exceptions.NotFoundError "Example" example_id)
  | Some found => mret found
  end.

(** [ExampleService.get] over the in-memory [_storage] dictionary. *)
Definition storage_get (_storage : gmap string string) (example_id : string)
    : M (option string) :=
  mret (_storage !! example_id).
End WithFloat.
End ExampleApi.

(** ** [src/main.py] and the Starlette machinery it relies on *)
Module Main.
Import Middleware.
Section WithFloat.
Context `{PyFloat}.

(** The server's [send]: the event goes on the wire. *)
Definition server_send : Send :=
  fun message w => (Ok tt, with_wire (wire w ++ [message]) w).

Definition is_response_start (message : Message) : bool :=
  bool_decide (msg_type message = "http.response.start").

Definition is_response_body (message : Message) : bool :=
  bool_decide (msg_type message = "http.response.body").

Definition RuntimeError (text : string) : Exception :=
  {| exc_class := "RuntimeError"; exc_str := text; exc_status_code := None;
     isinstance_Exception := true |}.

Definition AssertionError : Exception :=
  {| exc_class := "AssertionError"; exc_str := ""; exc_status_code := None;
     isinstance_Exception := true |}.

(** The loop over the [body_stream] generator of a streaming response:
    of the events the wrapped application sent after the start, every
    body that is not empty goes out as a chunk with [more_body] set,
    until an event comes without [more_body]. The generator asserts
    that each event is a body event. *)
Fixpoint stream_body (received : list Message) (send : Send) : M unit :=
  match received with
  | [] => mret tt
  | message :: rest =>
      if is_response_body message then
        (if truthy (msg_body message)
         then send {| msg_type := "http.response.body"; msg_status := 0;
                      msg_headers := None; msg_body := msg_body message;
                      msg_more_body := true |}
         else mret tt);;
        (if msg_more_body message then stream_body rest send else mret tt)
      else raise AssertionError
  end.

(** [await response(scope, receive, send)]: a response with a body
    sends it in one event; a streaming response sends its chunks and
    closes with an empty body. *)
Definition send_response (response : Response) (send : Send) : M unit :=
  send {| msg_type := "http.response.start";
          msg_status := default 200 (status_code response);
          msg_headers := Some (headers response); msg_body := "";
          msg_more_body := false |};;
  match body_iterator response with
  | None =>
      send {| msg_type := "http.response.body"; msg_status := 0;
              msg_headers := None; msg_body := body response;
              msg_more_body := false |}
  | Some received =>
      stream_body received send;;
      send {| msg_type := "http.response.body"; msg_status := 0;
              msg_headers := None; msg_body := "";
              msg_more_body := false |}
  end.

(** [PlainTextResponse(content, status_code, headers)] *)
Definition PlainTextResponse (content : string) (code : Z) (extra : HeaderList)
    : Response :=
  {| status_code := Some code;
     headers := (map (fun kv => (lower kv.1, kv.2)) extra
                 ++ [("content-length", pretty (String.length content));
                     ("content-type", "text/plain; charset=utf-8")])%list;
     body := content; body_iterator := None |}.

(** [Request(scope)] *)
Definition request_of_scope (scope : Scope) : Request :=
  {| req_method := scope_method scope; req_url_path := scope_path scope;
     req_headers := scope_headers scope; req_client := scope_client scope |}.

(** *** [starlette.middleware.base.BaseHTTPMiddleware]

    [call_next] runs the wrapped application against an in-memory
    stream and re-raises what it raised. The first event it sent must
    be the start of a response; the streaming response that [call_next]
    returns takes its status and headers from it, and its body from the
    events that follow. *)
Definition stream_send : Send :=
  fun message w => (Ok tt, with_stream (stream w ++ [message]) w).

Definition received_response (sent : list Message) : Result Response :=
  match sent with
  | first :: rest =>
      if is_response_start first then
        Ok {| status_code := Some (msg_status first);
              headers := default [] (msg_headers first);
              body := "";
              body_iterator := Some rest |}
      else Raised AssertionError
  | [] => Raised (RuntimeError "No response returned.")
  end.

Definition call_next (app : ASGIApp) (scope : Scope) : CallNext :=
  fun _request w =>
    let outer := stream w in
    match app scope stream_send (with_stream [] w) with
    | (Ok _, w') => (received_response (stream w'), with_stream outer w')
    | (Raised e, w') => (Raised e, with_stream outer w')
    end.

Definition BaseHTTPMiddleware (dispatch : Request -> CallNext -> M Response)
    (app : ASGIApp) : ASGIApp :=
  fun scope send =>
    if bool_decide (scope_type scope ≠ "http") then app scope send
    else
      response ← dispatch (request_of_scope scope) (call_next app scope);
      send_response response send.

(** *** [starlette.middleware.exceptions.ExceptionMiddleware]

    With the handlers FastAPI installs by default: [HTTPException]
    and [RequestValidationError] become responses, anything else
    propagates. [configure_exception_handlers] of
    [src/core/exceptions.py] is never called by [create_app]. *)
Definition default_handler (e : Exception) : option Response :=
  if bool_decide (exc_class e = "HTTPException") then
    Some {| status_code := Some (default 500 (exc_status_code e));
            headers := [("content-type", "application/json")];
            body := exc_str e; body_iterator := None |}
  else if bool_decide (exc_class e = "RequestValidationError") then
    Some {| status_code := Some 422;
            headers := [("content-type", "application/json")];
            body := exc_str e; body_iterator := None |}
  else None.

Definition ExceptionMiddleware (app : ASGIApp) : ASGIApp :=
  fun scope send =>
    if bool_decide (scope_type scope ≠ "http") then app scope send
    else
      try_except (app scope send)
        (fun e =>
           match default_handler e with
           | Some response => send_response response send
           | None => raise e
           end).

(** *** [starlette.middleware.errors.ServerErrorMiddleware]

    Always the outermost layer: when the application raises an
    instance of [Exception], it sends a plain 500 through its own
    [send], unless a response has already started, and raises again. *)
Definition ServerErrorMiddleware (app : ASGIApp) : ASGIApp :=
  fun scope send =>
    if bool_decide (scope_type scope ≠ "http") then app scope send
    else
      fun w =>
        match app scope send w with
        | (Ok r, w') => (Ok r, w')
        | (Raised e, w') =>
            if isinstance_Exception e then
              let response_started :=
                existsb is_response_start (drop (length (wire w)) (wire w')) in
              if response_started then (Raised e, w')
              else
                (send_response (PlainTextResponse "Internal Server Error" 500 []) send;;
                 raise e) w'
            else (Raised e, w')
        end.

(** *** [ddtrace.contrib.asgi.TraceMiddleware]

    Records a span around the request; events and exceptions pass
    through untouched. *)
Definition TraceMiddleware (app : ASGIApp) : ASGIApp := app.

(** *** [starlette.middleware.cors.CORSMiddleware]

    As configured by [create_app]: [allow_credentials=True],
    [allow_methods=["*"]], [allow_headers=["*"]]. *)
Definition ALL_METHODS : list string :=
  ["DELETE"; "GET"; "HEAD"; "OPTIONS"; "PATCH"; "POST"; "PUT"].

Definition allow_all_origins (allow_origins : list string) : bool :=
  bool_decide ("*" ∈ allow_origins).

Definition is_allowed_origin (allow_origins : list string) (origin : string) : bool :=
  allow_all_origins allow_origins || bool_decide (origin ∈ allow_origins).

Definition simple_headers (allow_origins : list string) : HeaderList :=
  ((if allow_all_origins allow_origins
    then [("Access-Control-Allow-Origin", "*")] else [])
   ++ [("Access-Control-Allow-Credentials", "true")])%list.

Definition preflight_headers : HeaderList :=
  [("Vary", "Origin");
   ("Access-Control-Allow-Methods", String.concat ", " ALL_METHODS);
   ("Access-Control-Max-Age", "600");
   ("Access-Control-Allow-Credentials", "true")].

Definition preflight_response (allow_origins : list string)
    (request_headers : HeaderList) : Response :=
  let requested_origin := default "" (headers_get request_headers "origin") in
  let requested_method :=
    default "" (headers_get request_headers "access-control-request-method") in
  let requested_headers := headers_get request_headers "access-control-request-headers" in
  let origin_ok := is_allowed_origin allow_origins requested_origin in
  let method_ok := bool_decide (requested_method ∈ ALL_METHODS) in
  let hdrs :=
    (preflight_headers
     ++ (if origin_ok then [("Access-Control-Allow-Origin", requested_origin)] else [])
     ++ match requested_headers with
        | Some v => [("Access-Control-Allow-Headers", v)]
        | None => []
        end)%list in
  let failures :=
    ((if origin_ok then [] else ["origin"])
     ++ (if method_ok then [] else ["method"]))%list in
  match failures with
  | [] => PlainTextResponse "OK" 200 hdrs
  | _ => PlainTextResponse ("Disallowed CORS " ++ String.concat ", " failures) 400 hdrs
  end.

(** [headers.add_vary_header("Origin")] *)
Definition add_vary_header (vary : string) (l : HeaderList) : HeaderList :=
  match headers_get l "vary" with
  | Some existing => headers_setitem l "vary" (existing ++ ", " ++ vary)
  | None => headers_setitem l "vary" vary
  end.

Definition allow_explicit_origin (origin : string) (l : HeaderList) : HeaderList :=
  add_vary_header "Origin" (headers_setitem l "Access-Control-Allow-Origin" origin).

Definition cors_send (allow_origins : list string) (request_headers : HeaderList)
    (send : Send) : Send :=
  fun message =>
    if negb (is_response_start message) then send message
    else
      let hdrs := default [] (msg_headers message) in
      let hdrs :=
        foldl (fun acc kv => headers_setitem acc kv.1 kv.2) hdrs
              (simple_headers allow_origins) in
      let origin := default "" (headers_get request_headers "Origin") in
      let has_cookie := bool_decide (is_Some (headers_get request_headers "cookie")) in
      let hdrs :=
        if allow_all_origins allow_origins && has_cookie
        then allow_explicit_origin origin hdrs
        else if negb (allow_all_origins allow_origins)
                && is_allowed_origin allow_origins origin
        then allow_explicit_origin origin hdrs
        else hdrs in
      send {| msg_type := msg_type message; msg_status := msg_status message;
              msg_headers := Some hdrs; msg_body := msg_body message;
              msg_more_body := msg_more_body message |}.

Definition CORSMiddleware (allow_origins : list string) (app : ASGIApp) : ASGIApp :=
  fun scope send =>
    if bool_decide (scope_type scope ≠ "http") then app scope send
    else
      match headers_get (scope_headers scope) "origin" with
      | None => app scope send
      | Some _ =>
          if bool_decide (scope_method scope = "OPTIONS")
             && bool_decide (is_Some (headers_get (scope_headers scope)
                                        "access-control-request-method"))
          then send_response (preflight_response allow_origins (scope_headers scope)) send
          else app scope (cors_send allow_origins (scope_headers scope) send)
      end.

(** *** [Starlette.add_middleware] and [build_middleware_stack]

    [add_middleware] inserts at the front of [user_middleware];
    the stack is [ServerErrorMiddleware], the user middleware in
    list order, [ExceptionMiddleware], then the router, each layer
    wrapping the next. *)
Definition add_middleware (cls : ASGIApp -> ASGIApp)
    (user_middleware : list (ASGIApp -> ASGIApp)) : list (ASGIApp -> ASGIApp) :=
  cls :: user_middleware.

Definition build_middleware_stack (user_middleware : list (ASGIApp -> ASGIApp))
    (router : ASGIApp) : ASGIApp :=
  foldr (fun cls app => cls app) router
        ([ServerErrorMiddleware] ++ user_middleware ++ [ExceptionMiddleware])%list.

(** [create_app()]; [cors_origins] is [settings.cors_origins] and
    [router] the routes included in the application. *)
Definition create_app (cors_origins : list string) (router : ASGIApp) : ASGIApp :=
  let user_middleware := [] in
  (* Security headers *)
  let user_middleware :=
    add_middleware SecurityHeadersMiddleware.call user_middleware in
  (* CORS *)
  let user_middleware :=
    add_middleware (CORSMiddleware cors_origins) user_middleware in
  (* Request logging and correlation ID *)
  let user_middleware :=
    add_middleware (BaseHTTPMiddleware RequestLoggingMiddleware.dispatch)
                   user_middleware in
  let user_middleware :=
    add_middleware (BaseHTTPMiddleware CorrelationIdMiddleware.dispatch)
                   user_middleware in
  (* Datadog APM *)
  let user_middleware := add_middleware TraceMiddleware user_middleware in
  build_middleware_stack user_middleware router.

(** The route [GET /api/v1/examples/{example_id}] as FastAPI runs it:
    the endpoint's return value becomes a 200 JSON response, an
    exception it raises propagates to the middleware stack. *)
Definition examples_prefix : string := "/api/v1/examples/".

Definition get_example_route (_storage : gmap string string) : ASGIApp :=
  fun scope send =>
    let example_id :=
      substring (String.length examples_prefix)
                (String.length (scope_path scope) - String.length examples_prefix)
                (scope_path scope) in
    content ← ExampleApi.get_example (ExampleApi.storage_get _storage) example_id;
    send_response {| status_code := Some 200;
                     headers := [("content-type", "application/json")];
                     body := content; body_iterator := None |} send.

(** The real checkers, as [health.py] imports them. *)
Definition app_checkers : Health.Checkers :=
  {| Health.check_db_health := Session.check_db_health;
     Health.check_redis_health := Redis.check_redis_health |}.

(** A response start carries a header when the pair is in its list. *)
Definition carries (message : Message) (header : string * string) : Prop :=
  header ∈ default [] (msg_headers message).
End WithFloat.
End Main.

(** ** Concrete inputs *)

(** A process at rest: clocks at zero, empty log, probes succeeding. *)
Definition quiet_world : World (H := Q_float) :=
  {| settings_version := "0.1.0";
     perf_clock := fun n => inject_Z (Z.of_nat n);
     perf_reads := 0;
     wall_clock := fun _ => "2024-01-01T00:00:00+00:00";
     wall_reads := 0;
     urandom := fun n => N.of_nat n;
     urandom_reads := 0;
     correlation_id_ctx := "";
     log := [];
     redis_pool := Some "redis://localhost:6379/0";
     db_select_1 := Ok tt;
     redis_ping := Ok tt;
     redis_aclose := Ok tt;
     checker_calls := [];
     wire := [];
     stream := [] |}.

Definition http_get (path : string) (hdrs : HeaderList) : Scope :=
  {| scope_type := "http"; scope_method := "GET"; scope_path := path;
     scope_headers := hdrs; scope_client := Some ("127.0.0.1", 50000) |}.

Definition get_request (path : string) (hdrs : HeaderList) : Request :=
  Main.request_of_scope (http_get path hdrs).

(** What a handler returned, if it returned. *)
Definition returned `{PyFloat} {A} (r : Result A * World) : option A :=
  match r.1 with
  | Ok a => Some a
  | Raised _ => None
  end.

(** Template values of a service generated with database and cache. *)
Definition full_values : TemplateValues :=
  {| values_database := "aurora-postgresql"; values_orm := "sqlalchemy";
     values_cache := "elasticache-redis" |}.

(** A check result with the given status and nothing else. *)
Definition bare `{PyFloat} (s : Health.HealthStatus) : Health.ComponentHealth :=
  {| Health.status := s; Health.latency_ms := None; Health.message := None |}.

(** The latency a checker reports when it starts reading the clock in
    world [w]: the difference of the next two readings, in milliseconds,
    rounded to two decimals. *)
Definition measured_latency `{PyFloat} (w : World) : float :=
  float_round
    (float_mul_int
       (float_sub (perf_clock w (S (perf_reads w))) (perf_clock w (perf_reads w)))
       1000) 2.

(** [quiet_world] with the redis server unreachable. *)
Definition connection_refused : Exception :=
  {| exc_class := "ConnectionError"; exc_str := "connection refused";
     exc_status_code := None;
     isinstance_Exception := true |}.

Definition redis_down_world : World (H := Q_float) :=
  with_redis_ping (Raised connection_refused) quiet_world.

(** [quiet_world] with the database unreachable. *)
Definition db_down_world : World (H := Q_float) :=
  with_db_select_1 (Raised connection_refused) quiet_world.

(** Template values of a service generated without database or cache. *)
Definition bare_values : TemplateValues :=
  {| values_database := "none"; values_orm := "none"; values_cache := "none" |}.

(** A downstream application that answers 200 with an empty JSON object. *)
Definition plain_response : Response :=
  {| status_code := Some 200; headers := [("content-type", "application/json")];
     body := "{}"; body_iterator := None |}.

Definition plain_downstream `{PyFloat} : Middleware.CallNext :=
  fun _ => mret plain_response.

(** What the correlation middleware does once it has settled on the
    identifier [cid]: the downstream application runs in the world
    [w1], where the context variable already holds [cid]; when it
    returns a response the middleware returns it with the header set to
    [cid], and when it raises the exception propagates. *)
Definition answers_with_id `{PyFloat} (request : Request)
    (call_next : Middleware.CallNext) (w w1 : World) (cid : string) : Prop :=
  correlation_id_ctx w1 = cid
  /\ match call_next request w1 with
     | (Ok _, w2) =>
         exists response,
           Middleware.CorrelationIdMiddleware.dispatch request call_next w
             = (Ok response, w2)
           /\ headers_get (headers response)
                Middleware.CorrelationIdMiddleware.HEADER_NAME = Some cid
     | (Raised e, w2) =>
         Middleware.CorrelationIdMiddleware.dispatch request call_next w
           = (Raised e, w2)
     end.

(** The world in which the downstream application starts when the
    middleware generated the identifier itself. *)
Definition generated_id `{PyFloat} (w : World) : string :=
  str_uuid4 (urandom w (urandom_reads w)).

Definition after_generating `{PyFloat} (w : World) : World :=
  with_correlation_id_ctx (generated_id w)
    (with_urandom_reads (S (urandom_reads w)) w).

(** The [http_request] event of the logging middleware for a request
    that started at clock reading [t0] and whose response [response] was
    ready at reading [t1]. *)
Definition http_request_event `{PyFloat} (request : Request) (response : Response)
    (t0 t1 : float) : LogEvent :=
  {| log_level := "info";
     log_event := "http_request";
     log_fields :=
       [("method", LStr (req_method request));
        ("path", LStr (req_url_path request));
        ("status_code",
         match status_code response with Some n => LInt n | None => LNone end);
        ("duration_ms", LFloat (float_round (float_mul_int (float_sub t1 t0) 1000) 2));
        ("client_ip",
         match req_client request with Some (host, _) => LStr host | None => LNone end)] |}.

(** The request of [tests/test_api.py::test_get_example_not_found]
    against a service whose storage is empty, and what the server puts
    on the wire for it. *)
Definition missing_example_scope : Scope :=
  http_get "/api/v1/examples/00000000-0000-0000-0000-000000000000" [].

Definition missing_example_wire : list Message :=
  wire (Main.create_app (H := Q_float) ["*"] (Main.get_example_route ∅)
          missing_example_scope Main.server_send quiet_world).2.

(** ** [src/core/logging.py] *)
Module Logging.
Section WithFloat.
Context `{PyFloat}.

Definition get_correlation_id : M string :=
  cid ← ctx_get;
  if truthy cid then mret cid
  else
    cid ← new_uuid4;
    ctx_set cid;;
    mret cid.

(** [add_context]; [tenant_id] is the value of [tenant_id_ctx.get()],
    a context variable no code of the service assigns. The [logger] and
    [method_name] arguments are unused. *)
Definition add_context (values : TemplateValues) (tenant_id : string)
    (event_dict : gmap string LogValue) : M (gmap string LogValue) :=
  cid ← ctx_get;
  let event_dict :=
    <["correlation_id" := LStr (if truthy cid then cid else "unknown")]> event_dict in
  let event_dict :=
    if negb (bool_decide (values_database values = "none")) then
      (if truthy tenant_id then <["tenant_id" := LStr tenant_id]> event_dict
       else event_dict)
    else event_dict in
  mret event_dict.

(** [add_service_context]; [app_name] and [environment] are
    [settings.app_name] and [settings.environment]. *)
Definition add_service_context (app_name environment : string)
    (event_dict : gmap string LogValue) : M (gmap string LogValue) :=
  version ← get_settings_version;
  let event_dict := <["service" := LStr app_name]> event_dict in
  let event_dict := <["version" := LStr version]> event_dict in
  let event_dict := <["environment" := LStr environment]> event_dict in
  mret event_dict.
End WithFloat.
End Logging.

(** ** [src/core/exceptions.py]: the exception classes *)
Module AppErrors.

(** A value of the [details] dictionary. *)
Inductive Detail :=
| DStr (s : string)
| DInt (n : Z).

(** An [AppException] instance with the attributes [__init__] sets. *)
Record AppException := {
  class_name : string;
  message : string;
  error_code : string;
  app_status_code : Z;
  details : option (gmap string Detail);
}.

Definition NotFoundError (resource resource_id : string) : AppException :=
  {| class_name := "NotFoundError";
     message := resource ++ " with id '" ++ resource_id ++ "' not found";
     error_code := "NOT_FOUND";
     app_status_code := 404;
     details := Some (<["resource" := DStr resource]> (<["id" := DStr resource_id]> ∅)) |}.

Definition ValidationError (text : string) (extra : option (gmap string Detail))
    : AppException :=
  {| class_name := "ValidationError"; message := text;
     error_code := "VALIDATION_ERROR"; app_status_code := 400; details := extra |}.

Definition ConflictError (text : string) : AppException :=
  {| class_name := "ConflictError"; message := text;
     error_code := "CONFLICT"; app_status_code := 409; details := None |}.

Definition UnauthorizedError (text : string) : AppException :=
  {| class_name := "UnauthorizedError"; message := text;
     error_code := "UNAUTHORIZED"; app_status_code := 401; details := None |}.

Definition ForbiddenError (text : string) : AppException :=
  {| class_name := "ForbiddenError"; message := text;
     error_code := "FORBIDDEN"; app_status_code := 403; details := None |}.

Definition RateLimitError (retry_after : Z) : AppException :=
  {| class_name := "RateLimitError"; message := "Rate limit exceeded";
     error_code := "RATE_LIMIT_EXCEEDED"; app_status_code := 429;
     details := Some {["retry_after" := DInt retry_after]} |}.

Definition ServiceUnavailableError (service : string) : AppException :=
  {| class_name := "ServiceUnavailableError";
     message := "Service '" ++ service ++ "' is temporarily unavailable";
     error_code := "SERVICE_UNAVAILABLE"; app_status_code := 503;
     details := Some {["service" := DStr service]} |}.

(** The instance seen as a plain [Exception]: [super().__init__(message)]
    makes [str(e)] the message. *)
Definition as_exception (exc : AppException) : Exception :=
  {| exc_class := class_name exc; exc_str := message exc;
     exc_status_code := Some (app_status_code exc);
     isinstance_Exception := true |}.
End AppErrors.

(** ** Connection life cycle: [src/db/redis.py], [src/db/session.py],
    [lifespan] of [src/main.py] *)

(** [global redis_pool; redis_pool = p] *)
Definition with_redis_pool `{PyFloat} (p : option string) (w : World) : World :=
  {| settings_version := settings_version w; perf_clock := perf_clock w;
     perf_reads := perf_reads w; wall_clock := wall_clock w; wall_reads := wall_reads w;
     urandom := urandom w; urandom_reads := urandom_reads w;
     correlation_id_ctx := correlation_id_ctx w; log := log w;
     redis_pool := p; db_select_1 := db_select_1 w;
     redis_ping := redis_ping w; redis_aclose := redis_aclose w;
     checker_calls := checker_calls w; wire := wire w; stream := stream w |}.

(** [try: body  finally: cleanup]: the cleanup runs either way, and an
    exception it raises replaces the body's outcome. *)
Definition try_finally `{PyFloat} {A} (body : M A) (cleanup : M unit) : M A :=
  fun w =>
    match body w with
    | (outcome, w') =>
        match cleanup w' with
        | (Ok _, w'') => (outcome, w'')
        | (Raised e, w'') => (Raised e, w'')
        end
    end.

Module RedisPool.
Section WithFloat.
Context `{PyFloat}.

Definition set_redis_pool (p : option string) : M unit :=
  fun w => (Ok tt, with_redis_pool p w).

(** [init_redis]; [redis_url] is [settings.redis_url], and [from_url]
    is what [redis.ConnectionPool.from_url] does with the settings: it
    builds the pool, or raises, as it does with [ValueError] on a URL
    whose scheme is none of [redis://], [rediss://] and [unix://]. The
    assignment to [redis_pool] happens only once the pool is built. *)
Definition init_redis (from_url : string -> Outcome) (redis_url : string) : M unit :=
  logger_info "initializing_redis_connection" [];;
  io (fun _ => from_url redis_url);;
  set_redis_pool (Some redis_url);;
  (* Test connection *)
  Redis.client_ping;;
  Redis.client_aclose;;
  logger_info "redis_connection_established" [].

(** [close_redis]; [disconnect] is [await redis_pool.disconnect()]. *)
Definition close_redis (disconnect : M unit) : M unit :=
  pool ← Redis.get_redis_pool;
  match pool with
  | Some _ =>
      logger_info "closing_redis_connection" [];;
      disconnect;;
      set_redis_pool None
  | None => mret tt
  end.

(** [get_redis], a dependency with [yield]: [use] is what the endpoint
    does with the client between the [yield] and the [finally]. *)
Definition get_redis {A} (use : M A) : M A :=
  pool ← Redis.get_redis_pool;
  match pool with
  | None => raise (Main.RuntimeError "Redis pool not initialized")
  | Some _ => try_finally use Redis.client_aclose
  end.
End WithFloat.
End RedisPool.

Module DbSession.
Section WithFloat.
Context `{PyFloat}.

Definition init_db : M unit :=
  logger_info "initializing_database_connection" [];;
  (* Test connection *)
  Session.select_1;;
  logger_info "database_connection_established" [].

(** [close_db]; [dispose] is [await engine.dispose()]. *)
Definition close_db (dispose : M unit) : M unit :=
  logger_info "closing_database_connection" [];;
  dispose.

(** [get_session], a dependency with [yield]: [use] is what the
    endpoint does with the session; [commit], [rollback] and [close] are
    the session's methods, [close] being what leaving the
    [async with] block awaits. *)
Definition get_session {A} (commit rollback close : M unit) (use : M A) : M A :=
  try_finally
    (try_except
       (result ← use;
        commit;;
        mret result)
       (fun e => rollback;; raise e))
    close.
End WithFloat.
End DbSession.

Module Lifespan.
Section WithFloat.
Context `{PyFloat}.

(** [configure_logging()] sets up structlog and the standard logging
    module; none of the state kept in [World] changes. *)
Definition configure_logging : M unit := mret tt.

(** [lifespan(app)]: [serving] is the life of the application between
    entering and leaving the context manager; [environment] is
    [settings.environment] and [dispose] is [await engine.dispose()]. *)
Definition lifespan {A} (values : TemplateValues) (environment : string)
    (dispose : M unit) (serving : M A) : M A :=
  configure_logging;;
  version ← get_settings_version;
  logger_info "starting_application"
    [("version", LStr version); ("environment", LStr environment)];;
  (if db_enabled values then DbSession.init_db else mret tt);;
  result ← serving;
  (if db_enabled values then DbSession.close_db dispose else mret tt);;
  logger_info "shutting_down_application" [];;
  mret result.
End WithFloat.
End Lifespan.

(** ** Vocabulary of the further properties *)

(** A downstream application that asks the logging module for the
    correlation identifier and answers with it as the body. *)
Definition id_echo_downstream `{PyFloat} : Middleware.CallNext :=
  fun _ =>
    cid ← Logging.get_correlation_id;
    mret {| status_code := Some 200; headers := []; body := cid;
            body_iterator := None |}.

(** The outcome of [await client.ping()] followed by
    [await client.aclose()]. *)
Definition redis_probe `{PyFloat} (w : World) : Outcome :=
  match redis_ping w with
  | Ok _ => redis_aclose w
  | Raised e => Raised e
  end.

(** The exception with which an awaited call gets past
    [except Exception], when it does. *)
Definition escaping (outcome : Outcome) : option Exception :=
  match outcome with
  | Ok _ => None
  | Raised e => if isinstance_Exception e then None else Some e
  end.

(** The exception, outside [Exception], that the first configured
    probe to raise one raises in world [w]: the database comes first,
    and redis is probed only when its pool is set. *)
Definition readiness_interrupted `{PyFloat} (values : TemplateValues) (w : World)
    : option Exception :=
  match (if db_enabled values then escaping (db_select_1 w) else None) with
  | Some e => Some e
  | None =>
      if redis_enabled values then
        match redis_pool w with
        | Some _ => escaping (redis_probe w)
        | None => None
        end
      else None
  end.

(** What the probes of the real checkers will find in world [w]. *)
Definition db_failing `{PyFloat} (values : TemplateValues) (w : World) : Prop :=
  db_enabled values = true /\ db_select_1 w <> Ok tt.

Definition redis_failing `{PyFloat} (values : TemplateValues) (w : World) : Prop :=
  redis_enabled values = true
  /\ (redis_pool w = None \/ redis_ping w <> Ok tt \/ redis_aclose w <> Ok tt).

(** A stand-in for an awaited method that leaves its name in the log. *)
Definition noting `{PyFloat} (name : string) : M unit := logger_info name [].

(** A session method that leaves its name in the log and then has the
    given outcome, to watch [get_session] at work. *)
Definition session_method `{PyFloat} (name : string) (outcome : Outcome) : M unit :=
  logger_info name [];;
  io (fun _ => outcome).

(** The names of the events logged since the log had length [n]. *)
Definition events_since `{PyFloat} (n : nat) (w : World) : list string :=
  map log_event (drop n (log w)).

Definition is_ok {A} (r : Result A) : bool :=
  match r with Ok _ => true | Raised _ => false end.

(** The number of entries of a header list that bear the name [key]. *)
Definition header_count (l : HeaderList) (key : string) : nat :=
  length (filter (fun p => p.1 = key) l).

(** The entries of a header list under other names than [key]. *)
Definition other_headers (l : HeaderList) (key : string) : HeaderList :=
  filter (fun p => p.1 ≠ key) l.

(** ** [src/services/example.py], the in-memory [ExampleService] *)
Module ExampleService.

(** A value held in an item dictionary. *)
Inductive PyValue :=
| VStr (s : string)
| VBool (b : bool)
| VNone
| VUuid (id : N)
| VTime (iso : string).

(** An item: [dict] with string keys. *)
Abbreviation Item := (gmap string PyValue).

(** *** Python [dict] keyed by UUID, in insertion order

    [_storage] is a class attribute: one dictionary shared by every
    instance of the service. *)
Definition Storage := list (N * Item).

(** [d.get(key)] *)
Fixpoint dict_get (d : Storage) (key : N) : option Item :=
  match d with
  | [] => None
  | (k, v) :: rest => if bool_decide (k = key) then Some v else dict_get rest key
  end.

(** [d[key] = value]: an existing key keeps its place. *)
Fixpoint dict_set (d : Storage) (key : N) (value : Item) : Storage :=
  match d with
  | [] => [(key, value)]
  | (k, v) :: rest =>
      if bool_decide (k = key) then (k, value) :: rest
      else (k, v) :: dict_set rest key value
  end.

(** [del d[key]] *)
Fixpoint dict_del (d : Storage) (key : N) : Storage :=
  match d with
  | [] => []
  | (k, v) :: rest =>
      if bool_decide (k = key) then rest else (k, v) :: dict_del rest key
  end.

(** [key in d] *)
Definition dict_contains (d : Storage) (key : N) : bool :=
  bool_decide (is_Some (dict_get d key)).

(** [list(d.values())] *)
Definition dict_values (d : Storage) : list Item := map snd d.

(** A dictionary has each key once. *)
Definition well_formed (d : Storage) : Prop := NoDup (map fst d).

(** *** [l[start:stop]] with Python's treatment of negative and
    out-of-range indices *)
Definition slice_index (len i : Z) : Z :=
  if i <? 0 then Z.max (i + len) 0 else Z.min i len.

Definition python_slice {A} (l : list A) (start stop : Z) : list A :=
  let len := Z.of_nat (length l) in
  let first := slice_index len start in
  let last := slice_index len stop in
  take (Z.to_nat (last - first)) (drop (Z.to_nat first) l).

(** *** [a / b] on integers, and [math.ceil]

    True division of two [int]s gives the float, an IEEE 754 binary64
    number, that is nearest to the exact quotient, a tie going to the
    even significand, subnormal numbers included. It raises
    [ZeroDivisionError] when the divisor is zero and [OverflowError]
    when the quotient is too large for a float. A finite float is kept
    here as an integer significand and a binary exponent, standing for
    [significand * 2 ^ exponent]; the sign of a zero is not kept. *)
Record Float64 := {
  significand : Z;
  exponent : Z;
}.

(** The integer nearest to [n / d] for a positive [d], a tie going to
    the even neighbour. *)
Definition div_half_even (n d : Z) : Z :=
  let q := n / d in
  let r := n mod d in
  if 2 * r <? d then q
  else if d <? 2 * r then q + 1
  else if Z.even q then q else q + 1.

(** [b * 2 ^ l <= a], for [l] of either sign. *)
Definition scaled_le (b l a : Z) : bool :=
  if 0 <=? l then b * 2 ^ l <=? a else b <=? a * 2 ^ (- l).

(** The exponent of the float nearest to [a / b], for positive [a] and
    [b]: with [l] the integer part of the binary logarithm of the
    quotient, it is [l - 52], leaving 53 bits to the significand, and
    [-1074] in the subnormal range below. *)
Definition quotient_exponent (a b : Z) : Z :=
  let d := Z.log2 a - Z.log2 b in
  let l := if scaled_le b d a then d else d - 1 in
  Z.max (l - 52) (- 1074).

(** The float nearest to [a / b], for positive [a] and [b]. *)
Definition nearest_float (a b : Z) : Float64 :=
  let e := quotient_exponent a b in
  {| significand :=
       if 0 <=? e then div_half_even a (b * 2 ^ e)
       else div_half_even (a * 2 ^ (- e)) b;
     exponent := e |}.

Definition ZeroDivisionError : Exception :=
  {| exc_class := "ZeroDivisionError"; exc_str := "division by zero";
     exc_status_code := None;
     isinstance_Exception := true |}.

Definition OverflowError : Exception :=
  {| exc_class := "OverflowError";
     exc_str := "integer division result too large for a float";
     exc_status_code := None;
     isinstance_Exception := true |}.

(** [a / b] for [int]s [a] and [b]. *)
Definition int_truediv (a b : Z) : Result Float64 :=
  if b =? 0 then Raised ZeroDivisionError
  else if a =? 0 then Ok {| significand := 0; exponent := 0 |}
  else
    let x := nearest_float (Z.abs a) (Z.abs b) in
    if (0 <=? exponent x) && (2 ^ 1024 <=? significand x * 2 ^ exponent x)
    then Raised OverflowError
    else Ok {| significand := Z.sgn a * Z.sgn b * significand x;
               exponent := exponent x |}.

(** [math.ceil(x)] for a finite float [x]. *)
Definition math_ceil (x : Float64) : Z :=
  if 0 <=? exponent x then significand x * 2 ^ exponent x
  else - ((- significand x) / 2 ^ (- exponent x)).

(** The least integer that is not below the exact quotient [a / b], for
    a positive [b]. *)
Definition ceil_div (a b : Z) : Z := - ((- a) / b).

(** *** Schemas of [src/schemas/example.py] *)

(** A validated [ExampleCreate]. *)
Record ExampleCreate := {
  name : string;
  description : option string;
  is_active : bool;
}.

(** A validated [ExampleUpdate]: for each field, [None] when the
    request did not set it, [Some v] when it set it to [v], where [v]
    may be [None] (JSON [null]). *)
Record ExampleUpdate := {
  set_name : option (option string);
  set_description : option (option string);
  set_is_active : option (option bool);
}.

Definition opt_str (v : option string) : PyValue :=
  match v with Some s => VStr s | None => VNone end.

Definition opt_bool (v : option bool) : PyValue :=
  match v with Some b => VBool b | None => VNone end.

(** [data.model_dump()] *)
Definition model_dump (data : ExampleCreate) : Item :=
  <["name" := VStr (name data)]>
    (<["description" := opt_str (description data)]>
       (<["is_active" := VBool (is_active data)]> ∅)).

(** [data.model_dump(exclude_unset=True)]: the fields the request set. *)
Definition model_dump_exclude_unset (data : ExampleUpdate) : Item :=
  let d : Item := ∅ in
  let d := match set_name data with Some v => <["name" := opt_str v]> d | None => d end in
  let d := match set_description data with
           | Some v => <["description" := opt_str v]> d | None => d end in
  match set_is_active data with Some v => <["is_active" := opt_bool v]> d | None => d end.

Section Service.
Context `{PyFloat}.
(** [ExampleResponse] built from the entries of an item: pydantic
    either builds the response or raises its validation error. *)
Context {ExampleResponse : Type}.
Variable validate : Item -> Result ExampleResponse.

Record PaginatedResponse := {
  items : list ExampleResponse;
  total : Z;
  page : Z;
  page_size : Z;
  total_pages : Z;
}.

(** The list comprehension that builds an [ExampleResponse] from each
    item of [paginated], in order. *)
Fixpoint validate_all (paginated : list Item) : Result (list ExampleResponse) :=
  match paginated with
  | [] => Ok []
  | item :: rest =>
      match validate item with
      | Ok response =>
          match validate_all rest with
          | Ok responses => Ok (response :: responses)
          | Raised e => Raised e
          end
      | Raised e => Raised e
      end
  end.

(** [uuid4()] *)
Definition uuid4 : M N :=
  fun w => (Ok (uuid4_int (urandom w (urandom_reads w))),
            with_urandom_reads (S (urandom_reads w)) w).

(** [ExampleService.list] *)
Definition list_examples (_storage : Storage) (page_number size : Z)
    : Result PaginatedResponse :=
  let all := dict_values _storage in
  let count := Z.of_nat (length all) in
  let offset := (page_number - 1) * size in
  let paginated := python_slice all offset (offset + size) in
  match validate_all paginated with
  | Raised e => Raised e
  | Ok responses =>
      if 0 <? count then
        match int_truediv count size with
        | Raised e => Raised e
        | Ok quotient =>
            Ok {| items := responses; total := count; page := page_number;
                  page_size := size; total_pages := math_ceil quotient |}
        end
      else Ok {| items := responses; total := count; page := page_number;
                 page_size := size; total_pages := 0 |}
  end.

(** [ExampleService.get] *)
Definition get (_storage : Storage) (example_id : N)
    : Result (option ExampleResponse) :=
  match dict_get _storage example_id with
  | Some item =>
      if bool_decide (size item = 0%nat) then Ok None
      else match validate item with
           | Ok response => Ok (Some response)
           | Raised e => Raised e
           end
  | None => Ok None
  end.

(** [ExampleService.create]: the new storage, and what the method
    returns or raises. *)
Definition create (_storage : Storage) (data : ExampleCreate)
    : M (Storage * Result ExampleResponse) :=
  now ← now_isoformat;
  example_id ← uuid4;
  let item : Item :=
    <["updated_at" := VTime now]>
      (<["created_at" := VTime now]>
         (model_dump data ∪ <["id" := VUuid example_id]> ∅)) in
  let _storage := dict_set _storage example_id item in
  logger_info "example_created"
    [("id", LStr (uuid_str example_id)); ("name", LStr (name data))];;
  mret (_storage, validate item).

(** [ExampleService.update] *)
Definition update (_storage : Storage) (example_id : N) (data : ExampleUpdate)
    : M (Storage * Result (option ExampleResponse)) :=
  match dict_get _storage example_id with
  | None => mret (_storage, Ok None)
  | Some item =>
      if bool_decide (size item = 0%nat) then mret (_storage, Ok None)
      else
        let update_data := model_dump_exclude_unset data in
        let item := update_data ∪ item in
        now ← now_isoformat;
        let item := <["updated_at" := VTime now]> item in
        let _storage := dict_set _storage example_id item in
        logger_info "example_updated" [("id", LStr (uuid_str example_id))];;
        mret (_storage,
              match validate item with
              | Ok response => Ok (Some response)
              | Raised e => Raised e
              end)
  end.

(** [ExampleService.delete] *)
Definition delete (_storage : Storage) (example_id : N) : M (Storage * bool) :=
  if negb (dict_contains _storage example_id) then mret (_storage, false)
  else
    let _storage := dict_del _storage example_id in
    logger_info "example_deleted" [("id", LStr (uuid_str example_id))];;
    mret (_storage, true).

(** The items of page [page_number], empty when the call raises. *)
Definition page_items (_storage : Storage) (page_number size : Z)
    : list ExampleResponse :=
  match list_examples _storage page_number size with
  | Ok response => items response
  | Raised _ => []
  end.
End Service.

(** A validation that accepts an item when it has a string [name] and a
    boolean [is_active], and answers with the item itself. *)
Definition lenient (item : Item) : Result Item :=
  match item !! "name", item !! "is_active" with
  | Some (VStr _), Some (VBool _) => Ok item
  | _, _ => Raised {| exc_class := "ValidationError";
                      exc_str := "validation error for ExampleResponse";
                      exc_status_code := None;
                      isinstance_Exception := true |}
  end.
End ExampleService.

(** ** Vocabulary of the end-to-end properties *)

(** A route whose endpoint returns a response or raises: FastAPI sends
    what the endpoint returns and lets what it raises propagate. *)
Definition endpoint_route `{PyFloat} (endpoint : M Response) : Middleware.ASGIApp :=
  fun scope send =>
    response ← endpoint;
    Main.send_response response send.

(** An endpoint that keeps its hands off the transport: it neither
    sends on the wire nor touches the middleware's stream. *)
Definition leaves_transport `{PyFloat} {A} (endpoint : M A) : Prop :=
  forall w, stream (endpoint w).2 = stream w /\ wire (endpoint w).2 = wire w.

(** The identifier the correlation middleware settles on for a request
    arriving in world [w]. *)
Definition request_id `{PyFloat} (scope : Scope) (w : World) : string :=
  match headers_get (scope_headers scope) Middleware.CorrelationIdMiddleware.HEADER_NAME with
  | Some v => if truthy v then v else generated_id w
  | None => generated_id w
  end.

(** The two events of a response with the given status, headers and
    body. *)
Definition response_events (code : Z) (hdrs : HeaderList) (content : string)
    : list Message :=
  [{| msg_type := "http.response.start"; msg_status := code;
      msg_headers := Some hdrs; msg_body := ""; msg_more_body := false |};
   {| msg_type := "http.response.body"; msg_status := 0;
      msg_headers := None; msg_body := content; msg_more_body := false |}].

(** The events with which a streaming response delivers the body
    [content]: the chunk with [more_body] set, unless it is empty, and
    the closing empty body. *)
Definition streamed_body (content : string) : list Message :=
  ((if truthy content
    then [{| msg_type := "http.response.body"; msg_status := 0;
             msg_headers := None; msg_body := content; msg_more_body := true |}]
    else [])
   ++ [{| msg_type := "http.response.body"; msg_status := 0;
          msg_headers := None; msg_body := ""; msg_more_body := false |}])%list.

(** What the client of the assembled application receives for a
    response that the route or the exception middleware produced: the
    response's own headers, then the six security headers, and the
    correlation identifier; the body comes streamed, as the two
    [BaseHTTPMiddleware] layers pass it on. *)
Definition secured_events (response : Response) (cid : string) : list Message :=
  {| msg_type := "http.response.start";
     msg_status := default 200 (status_code response);
     msg_headers :=
       Some (headers_setitem
               (headers response
                ++ Middleware.SecurityHeadersMiddleware.security_headers)%list
               Middleware.CorrelationIdMiddleware.HEADER_NAME cid);
     msg_body := ""; msg_more_body := false |}
  :: streamed_body (body response).

(** The bare reply of [ServerErrorMiddleware]. *)
Definition server_error_events : list Message :=
  response_events 500
    [("content-length", "21"); ("content-type", "text/plain; charset=utf-8")]
    "Internal Server Error".

(** Three stored examples. *)
Definition three_examples : ExampleService.Storage :=
  [(1%N, ExampleService.model_dump
           {| ExampleService.name := "a"; ExampleService.description := None;
              ExampleService.is_active := true |});
   (2%N, ExampleService.model_dump
           {| ExampleService.name := "b"; ExampleService.description := Some "second";
              ExampleService.is_active := true |});
   (3%N, ExampleService.model_dump
           {| ExampleService.name := "c"; ExampleService.description := None;
              ExampleService.is_active := false |})].

(** The world in which the downstream application starts, once the
    correlation middleware has settled on the request's identifier. *)
Definition entering `{PyFloat} (scope : Scope) (w : World) : World :=
  match headers_get (scope_headers scope) Middleware.CorrelationIdMiddleware.HEADER_NAME with
  | Some v => if truthy v then with_correlation_id_ctx v w else after_generating w
  | None => after_generating w
  end.

(** The world in which the endpoint of a route starts when the request
    arrives in world [w]: identifier assigned, timer started, and a
    fresh stream between the route and the middleware. *)
Definition endpoint_world `{PyFloat} (scope : Scope) (w : World) : World :=
  with_stream []
    (with_perf_reads (S (perf_reads (entering scope w)))
       (with_stream [] (entering scope w))).

(** What the assembled application did with a request. *)
Definition served `{PyFloat} (cors_origins : list string) (endpoint : M Response)
    (scope : Scope) (w : World) : Result unit * World :=
  Main.create_app cors_origins (endpoint_route endpoint) scope Main.server_send w.

(** The response that the route, or the exception middleware on its
    behalf, produces for a request arriving in world [w]. *)
Definition produced `{PyFloat} (endpoint : M Response) (scope : Scope) (w : World)
    (response : Response) : Prop :=
  (endpoint (endpoint_world scope w)).1 = Ok response
  \/ exists e, (endpoint (endpoint_world scope w)).1 = Raised e
               /\ isinstance_Exception e = true
               /\ Main.default_handler e = Some response.

(** ** [src/core/config.py]: [Settings.parse_cors_origins] *)
Module Config.

(** A [str], as the list of its Unicode code points. *)
Definition Str := list N.

(** The [str] of an ASCII literal. *)
Definition str (literal : string) : Str :=
  map N_of_ascii (list_ascii_of_string literal).

(** The code point of [","]. *)
Definition COMMA : N := 44.

(** [s.split(sep)] for a one-character separator: one more piece than
    there are separators, empty pieces included. *)
Fixpoint split_on (sep : N) (s : Str) : list Str :=
  match s with
  | [] => [[]]
  | c :: rest =>
      if bool_decide (c = sep) then [] :: split_on sep rest
      else match split_on sep rest with
           | piece :: pieces => (c :: piece) :: pieces
           | [] => [[c]]
           end
  end.

(** [sep.join(pieces)] *)
Fixpoint join (sep : N) (pieces : list Str) : Str :=
  match pieces with
  | [] => []
  | piece :: rest =>
      match rest with
      | [] => piece
      | _ :: _ => (piece ++ sep :: join sep rest)%list
      end
  end.

(** [c.isspace()], the characters that [str.strip()] removes: the code
    points that Unicode classes as whitespace. *)
Definition isspace (c : N) : bool :=
  ((9 <=? c) && (c <=? 13) || (28 <=? c) && (c <=? 32)
   || (c =? 0x85) || (c =? 0xA0) || (c =? 0x1680)
   || (0x2000 <=? c) && (c <=? 0x200A)
   || (c =? 0x2028) || (c =? 0x2029) || (c =? 0x202F) || (c =? 0x205F)
   || (c =? 0x3000))%N.

Fixpoint lstrip (s : Str) : Str :=
  match s with
  | [] => []
  | c :: rest => if isspace c then lstrip rest else s
  end.

Fixpoint rstrip (s : Str) : Str :=
  match s with
  | [] => []
  | c :: rest =>
      match rstrip rest with
      | [] => if isspace c then [] else [c]
      | kept => c :: kept
      end
  end.

(** [s.strip()] *)
Definition strip (s : Str) : Str := rstrip (lstrip s).

(** [parse_cors_origins(cls, v)]: [v] is the raw setting, a string
    ([inl]) or already a list ([inr]). *)
Definition parse_cors_origins (v : Str + list Str) : list Str :=
  match v with
  | inl text => map strip (split_on COMMA text)
  | inr origins => origins
  end.

(** A string with no whitespace at either end. *)
Definition trimmed (s : Str) : Prop :=
  (forall c, head s = Some c -> isspace c = false)
  /\ (forall c, last s = Some c -> isspace c = false).

(** An origin as [parse_cors_origins] returns it: no comma in it and
    no whitespace around it. *)
Definition clean (origin : Str) : Prop := (COMMA ∉ origin) /\ trimmed origin.
End Config.

(** * Properties *)

(** ** Headers and identifiers *)

Lemma headers_lookup_replace l k v :
  is_Some (headers_lookup l k) -> headers_lookup (headers_replace l k v) k = Some v.
Proof.
  induction l as [|[k' v'] t IH]; simpl.
  - intros [x Hx]; discriminate.
  - destruct (bool_decide (k' = k)) eqn:E; simpl.
    + intros _. rewrite bool_decide_eq_true_2; auto.
    + rewrite E. exact IH.
Qed.

Lemma headers_lookup_app_miss l k v :
  headers_lookup l k = None -> headers_lookup (l ++ [(k, v)])%list k = Some v.
Proof.
  induction l as [|[k' v'] t IH]; simpl.
  - intros _. rewrite bool_decide_eq_true_2; auto.
  - destruct (bool_decide (k' = k)); [discriminate | exact IH].
Qed.

Lemma headers_get_setitem l key value :
  headers_get (headers_setitem l key value) key = Some value.
Proof.
  unfold headers_get, headers_setitem.
  destruct (headers_lookup l (lower key)) eqn:E.
  - apply headers_lookup_replace. rewrite E. eauto.
  - apply headers_lookup_app_miss, E.
Qed.

Lemma hex_digits_length k : forall n acc,
  String.length (hex_digits k n acc) = (k + String.length acc)%nat.
Proof.
  induction k as [|k IH]; intros n acc; simpl; [reflexivity|].
  rewrite IH. simpl. lia.
Qed.

Lemma length_append (a b : string) :
  String.length (a ++ b) = (String.length a + String.length b)%nat.
Proof. induction a as [|c a IH]; simpl; [reflexivity | now rewrite IH]. Qed.

Lemma length_substring : forall (s : string) (n m : nat),
  (n + m <= String.length s)%nat -> String.length (substring n m s) = m.
Proof.
  induction s as [|c s IH]; intros n m Hle; simpl in *.
  - destruct n, m; simpl; try reflexivity; lia.
  - destruct n as [|n].
    + destruct m as [|m]; simpl; [reflexivity|].
      f_equal. apply (IH 0%nat m). lia.
    + apply IH. lia.
Qed.

Lemma uuid_str_length i : String.length (uuid_str i) = 36%nat.
Proof.
  unfold uuid_str.
  assert (Hlen : String.length (hex_digits 32 i "") = 32%nat)
    by (rewrite hex_digits_length; reflexivity).
  repeat rewrite length_append.
  repeat rewrite length_substring by (rewrite Hlen; lia).
  reflexivity.
Qed.

Lemma str_uuid4_nonempty r : str_uuid4 r <> "".
Proof.
  intros E. pose proof (uuid_str_length (uuid4_int r)) as Hl.
  unfold str_uuid4 in E. rewrite E in Hl. discriminate.
Qed.

Lemma truthy_nonempty s : s <> "" -> truthy s = true.
Proof. intros Hs. unfold truthy. now rewrite bool_decide_eq_false_2. Qed.

(** ** Health probes *)
Module HealthProps.
Import Health.

Ltac run_M :=
  unfold mbind, M_bind, bind, mret, M_ret, ret, try_except, io, await_checker,
    reporting, get_settings_version, now_isoformat, perf_counter, logger_error,
    logger_info, logger_emit;
  cbn -[insert size].

Ltac decide_statuses :=
  repeat match goal with
  | |- context [bool_decide (?a = ?b)] =>
      first [ rewrite (bool_decide_eq_true_2 (a = b)) by congruence
            | rewrite (bool_decide_eq_false_2 (a = b)) by congruence ]
  | |- context [bool_decide (?a ≠ ?b)] =>
      first [ rewrite (bool_decide_eq_true_2 (a ≠ b)) by congruence
            | rewrite (bool_decide_eq_false_2 (a ≠ b)) by congruence ]
  end.

Lemma size_insert_nonzero {V} (k : string) (v : V) (m : gmap string V) :
  bool_decide (size (<[k:=v]> m) = 0%nat) = false.
Proof.
  apply bool_decide_eq_false_2. rewrite map_size_empty_iff.
  apply insert_non_empty.
Qed.

Lemma size_empty_zero {V} : bool_decide (size (∅ : gmap string V) = 0%nat) = true.
Proof. apply bool_decide_eq_true_2, map_size_empty. Qed.

(** Runs the readiness endpoint against reporting checkers, one goal
    per combination of template guards and reported statuses. *)
Ltac run_readiness values db redis :=
  unfold GET_health_ready, serve_with_response, readiness, reporting_checkers,
    configured_components, reported_statuses;
  let Edb := fresh "Edb" in
  let Ere := fresh "Ere" in
  let Sdb := fresh "Sdb" in
  let Sre := fresh "Sre" in
  destruct (db_enabled values) eqn:Edb, (redis_enabled values) eqn:Ere;
  destruct (status db) eqn:Sdb, (status redis) eqn:Sre;
  run_M;
  rewrite ?Sdb, ?Sre, ?size_insert_nonzero, ?size_empty_zero;
  decide_statuses; cbn -[insert size].

(** The readiness endpoint awaits exactly the configured checkers, in
    the order database, redis. *)
Lemma readiness_awaits_configured `{PyFloat} values db redis w :
  exists reply w',
    GET_health_ready values (reporting_checkers db redis) w = (Ok reply, w')
    /\ checker_calls w' =
       (checker_calls w
        ++ (if db_enabled values then ["check_db_health"] else [])
        ++ (if redis_enabled values then ["check_redis_health"] else []))%list.
Proof.
  run_readiness values db redis.
  all: do 2 eexists; split; [reflexivity|].
  all: cbn; rewrite <- ?app_assoc, ?app_nil_r; reflexivity.
Qed.

(** C1 (as amended). The overall status of the readiness probe is
    decided per component: it is [unhealthy] exactly when the database
    check is configured and reports anything but [healthy]; otherwise
    [degraded] exactly when the redis check is configured and reports
    anything but [healthy]; otherwise [healthy]. *)
Theorem readiness_status_by_component `{PyFloat} values db redis w :
  exists code body w',
    GET_health_ready values (reporting_checkers db redis) w = (Ok (code, body), w')
    /\ (resp_status body = UNHEALTHY
        <-> db_enabled values = true /\ status db <> HEALTHY)
    /\ (resp_status body = DEGRADED
        <-> ~ (db_enabled values = true /\ status db <> HEALTHY)
            /\ redis_enabled values = true /\ status redis <> HEALTHY)
    /\ (resp_status body = HEALTHY
        <-> (db_enabled values = true -> status db = HEALTHY)
            /\ (redis_enabled values = true -> status redis = HEALTHY)).
Proof.
  run_readiness values db redis.
  all: do 3 eexists; split; [reflexivity|].
  all: cbn; intuition congruence.
Qed.

(** C1, refuted as stated: the overall status is not the most severe
    reported status. With the database healthy and redis reporting
    [unhealthy] the probe answers [degraded]; with the database
    reporting [degraded] it answers [unhealthy]. *)
Lemma readiness_not_severity_fold :
  ~ (forall (values : TemplateValues) (db redis : ComponentHealth (H := Q_float))
            (w : World),
       (fun reply => resp_status reply.2)
         <$> returned (GET_health_ready values (reporting_checkers db redis) w)
       = Some (spec_aggregate (reported_statuses values db redis))).
Proof.
  intros claim.
  specialize (claim full_values (bare HEALTHY) (bare UNHEALTHY) quiet_world).
  vm_compute in claim. discriminate.
Qed.

(** C2 (as amended). With both checks configured, exchanging the two
    reported results never changes the HTTP status code, and leaves
    the overall status unchanged exactly when the two results are both
    healthy or both non-healthy. *)
Theorem readiness_swap_components `{PyFloat} values c1 c2 w
    (Hdb : db_enabled values = true) (Hredis : redis_enabled values = true) :
  exists code body w' code' body' w'',
    GET_health_ready values (reporting_checkers c1 c2) w = (Ok (code, body), w')
    /\ GET_health_ready values (reporting_checkers c2 c1) w = (Ok (code', body'), w'')
    /\ code = code'
    /\ (resp_status body = resp_status body'
        <-> (status c1 = HEALTHY <-> status c2 = HEALTHY)).
Proof.
  unfold GET_health_ready, serve_with_response, readiness, reporting_checkers.
  rewrite Hdb, Hredis.
  destruct (status c1) eqn:S1, (status c2) eqn:S2.
  all: run_M; rewrite ?S1, ?S2, ?size_insert_nonzero; decide_statuses;
    cbn -[insert size].
  all: do 6 eexists; split; [reflexivity|]; split; [reflexivity|].
  all: cbn; intuition congruence.
Qed.

(** The theorem at database [unhealthy], redis [degraded]. *)
Lemma readiness_swap_components_witness :
  db_enabled full_values = true /\ redis_enabled full_values = true
  /\ exists code body w' code' body' w'',
    GET_health_ready full_values
      (reporting_checkers (bare UNHEALTHY) (bare DEGRADED)) quiet_world
      = (Ok (code, body), w')
    /\ GET_health_ready full_values
         (reporting_checkers (bare DEGRADED) (bare UNHEALTHY)) quiet_world
       = (Ok (code', body'), w'')
    /\ code = code'
    /\ (resp_status body = resp_status body'
        <-> (status (bare (H := Q_float) UNHEALTHY) = HEALTHY
             <-> status (bare (H := Q_float) DEGRADED) = HEALTHY)).
Proof.
  split; [reflexivity|]. split; [reflexivity|].
  apply (readiness_swap_components full_values (bare UNHEALTHY) (bare DEGRADED)
           quiet_world); reflexivity.
Defined.

(** C2, refuted as stated: database [unhealthy] with redis [healthy]
    gives [unhealthy], the exchanged reports give [degraded]. *)
Lemma readiness_swap_changes_status :
  ~ (forall (s1 s2 : HealthStatus),
       (fun reply => resp_status reply.2)
         <$> returned (GET_health_ready full_values
                         (reporting_checkers (bare s1) (bare s2)) quiet_world)
       = (fun reply => resp_status reply.2)
         <$> returned (GET_health_ready full_values
                         (reporting_checkers (bare s2) (bare s1)) quiet_world)).
Proof.
  intros claim. specialize (claim UNHEALTHY HEALTHY).
  vm_compute in claim. discriminate.
Qed.

(** C3. [GET /health/ready] answers 200 exactly when every configured
    component reports [healthy]; otherwise it answers 503 and the body
    carries a components map whose keys are exactly the configured
    component names. *)
Theorem ready_200_iff_all_healthy `{PyFloat} values db redis w :
  exists code body w',
    GET_health_ready values (reporting_checkers db redis) w = (Ok (code, body), w')
    /\ (code = 200
        <-> (db_enabled values = true -> status db = HEALTHY)
            /\ (redis_enabled values = true -> status redis = HEALTHY))
    /\ (code <> 200 ->
        code = 503
        /\ exists m, components body = Some m
                     /\ dom m = configured_components values).
Proof.
  run_readiness values db redis.
  all: do 3 eexists; split; [reflexivity|].
  all: unfold HTTP_503_SERVICE_UNAVAILABLE; split; [intuition congruence|].
  all: intros Hcode; try (exfalso; apply Hcode; reflexivity).
  all: split; [reflexivity|].
  all: eexists; split; [reflexivity|].
  all: rewrite ?dom_insert_L, ?dom_empty_L; set_solver.
Qed.

(** C5. The startup probe returns what the readiness probe returns:
    the same handler result for every response object and, served over
    HTTP, the same status code and body, whatever the checkers do. *)
Theorem startup_same_as_readiness `{PyFloat} values imports w :
  (forall response,
      startup values imports response w = readiness values imports response w)
  /\ GET_health_startup values imports w = GET_health_ready values imports w.
Proof. split; [intros response|]; reflexivity. Qed.

(** C7. [GET /health/live] and [GET /health] always answer 200 with
    status [healthy] and no components; neither awaits a component
    checker. *)
Theorem liveness_always_healthy `{PyFloat} (w : World) :
  (exists body w',
      GET_health_live w = (Ok (200, body), w')
      /\ resp_status body = HEALTHY
      /\ components body = None
      /\ checker_calls w' = checker_calls w)
  /\ (exists content w',
         GET_health w = (Ok (200, content), w')
         /\ content !! "status" = Some "healthy"
         /\ content !! "components" = None
         /\ dom content = {["status"; "version"; "timestamp"]}
         /\ checker_calls w' = checker_calls w).
Proof.
  split.
  - unfold GET_health_live, serve, liveness. run_M.
    do 2 eexists. repeat split.
  - unfold GET_health, serve, health. run_M.
    do 2 eexists. split; [reflexivity|].
    split; [apply lookup_insert_eq|].
    split; [by rewrite !lookup_insert_ne, lookup_empty by done|].
    split; [rewrite !dom_insert_L, dom_empty_L; set_solver | reflexivity].
Qed.
End HealthProps.

(** ** Component checkers *)
Module CheckerProps.
Import Health.

(** C8. [check_db_health] and [check_redis_health] return a
    [ComponentHealth] when the probe returns and when it raises an
    instance of [Exception] [e]: the result is then [unhealthy] with
    [str(e)] as message and the measured latency in [latency_ms], and
    the failure is logged. An exception that is no instance of
    [Exception] is not caught by [except Exception]: it comes out of
    the checker, and nothing is logged. *)
Theorem checkers_catch_Exception_only `{PyFloat} (w : World) :
  match db_select_1 w with
  | Ok _ =>
      exists c w', Session.check_db_health w = (Ok c, w') /\ status c = HEALTHY
  | Raised e =>
      if isinstance_Exception e then
        exists c w',
          Session.check_db_health w = (Ok c, w')
          /\ status c = UNHEALTHY
          /\ message c = Some (exc_str e)
          /\ latency_ms c = Some (measured_latency w)
          /\ map log_event (drop (length (log w)) (log w'))
             = ["database_health_check_failed"]
      else
        exists w', Session.check_db_health w = (Raised e, w') /\ log w' = log w
  end
  /\ match redis_pool w with
     | None =>
         exists c w', Redis.check_redis_health w = (Ok c, w') /\ status c = UNHEALTHY
     | Some _ =>
         match redis_probe w with
         | Ok _ =>
             exists c w', Redis.check_redis_health w = (Ok c, w') /\ status c = HEALTHY
         | Raised e =>
             if isinstance_Exception e then
               exists c w',
                 Redis.check_redis_health w = (Ok c, w')
                 /\ status c = UNHEALTHY
                 /\ message c = Some (exc_str e)
                 /\ latency_ms c = Some (measured_latency w)
                 /\ map log_event (drop (length (log w)) (log w'))
                    = ["redis_health_check_failed"]
             else
               exists w',
                 Redis.check_redis_health w = (Raised e, w') /\ log w' = log w
         end
     end.
Proof.
  split.
  - unfold Session.check_db_health, Session.select_1. HealthProps.run_M.
    destruct (db_select_1 w) as [[]|e] eqn:E; cbn.
    + do 2 eexists. split; reflexivity.
    + destruct (isinstance_Exception e); cbn.
      * do 2 eexists. split; [reflexivity|]. cbn.
        rewrite drop_app_length. repeat split.
      * eexists. split; reflexivity.
  - unfold Redis.check_redis_health, Redis.get_redis_pool, Redis.client_ping,
      Redis.client_aclose, redis_probe.
    HealthProps.run_M.
    destruct (redis_pool w) as [url|] eqn:Epool; cbn.
    + destruct (redis_ping w) as [[]|e1] eqn:Eping; cbn;
        [destruct (redis_aclose w) as [[]|e2] eqn:Eclose; cbn|].
      * do 2 eexists. split; reflexivity.
      * destruct (isinstance_Exception e2); cbn.
        -- do 2 eexists. split; [reflexivity|]. cbn.
           rewrite drop_app_length. repeat split.
        -- eexists. split; reflexivity.
      * destruct (isinstance_Exception e1); cbn.
        -- do 2 eexists. split; [reflexivity|]. cbn.
           rewrite drop_app_length. repeat split.
        -- eexists. split; reflexivity.
    + do 2 eexists. split; reflexivity.
Qed.

(** The checkers do raise: a probe cancelled while it awaits the
    server raises [asyncio.CancelledError], and either checker lets it
    through. *)
Lemma cancelled_probe_escapes_checkers :
  ~ (forall w : World (H := Q_float),
       exists c w', Session.check_db_health w = (Ok c, w'))
  /\ ~ (forall w : World (H := Q_float),
          exists c w', Redis.check_redis_health w = (Ok c, w')).
Proof.
  split; intros Hnever.
  - destruct (Hnever (with_db_select_1 (Raised CancelledError) quiet_world))
      as (c & w' & Hrun).
    vm_compute in Hrun. discriminate Hrun.
  - destruct (Hnever (with_redis_ping (Raised CancelledError) quiet_world))
      as (c & w' & Hrun).
    vm_compute in Hrun. discriminate Hrun.
Qed.

(** With the real checkers, a redis outage alone leaves the service
    [degraded] although the redis check itself reports [unhealthy]. *)
Example redis_outage_is_degraded :
  (fun reply => (reply.1, resp_status reply.2,
                 status <$> (components reply.2 ≫= (.!! "redis"))))
    <$> returned (GET_health_ready full_values Main.app_checkers redis_down_world)
  = Some (503, DEGRADED, Some UNHEALTHY).
Proof. vm_compute. reflexivity. Qed.

(** A database outage: 503, overall [unhealthy], and the component
    entry carries the exception text and the measured latency. *)
Example database_outage_is_unhealthy :
  (fun reply => (reply.1, resp_status reply.2,
                 components reply.2 ≫= (.!! "database")))
    <$> returned (GET_health_ready full_values Main.app_checkers db_down_world)
  = Some (503, UNHEALTHY,
          Some {| status := UNHEALTHY; latency_ms := Some (inject_Z 1000);
                  message := Some "connection refused" |}).
Proof. vm_compute. reflexivity. Qed.

(** Nothing configured: 200 and no components map. *)
Example nothing_configured_is_ready :
  (fun reply => (reply.1, resp_status reply.2, components reply.2))
    <$> returned (GET_health_ready bare_values Main.app_checkers quiet_world)
  = Some (200, HEALTHY, None).
Proof. vm_compute. reflexivity. Qed.
End CheckerProps.

(** ** Request pipeline *)
Module MiddlewareProps.
Import Middleware.

Ltac run_M :=
  unfold mbind, M_bind, bind, mret, M_ret, ret, ctx_set, new_uuid4, perf_counter,
    logger_info, logger_emit;
  cbn.

(** The middleware's behaviour once the identifier is chosen. *)
Lemma dispatch_with_id `{PyFloat} request call_next w w1 cid :
  CorrelationIdMiddleware.dispatch request call_next w
    = match call_next request w1 with
      | (Ok response, w2) =>
          (Ok (set_header CorrelationIdMiddleware.HEADER_NAME cid response), w2)
      | (Raised e, w2) => (Raised e, w2)
      end ->
  correlation_id_ctx w1 = cid ->
  answers_with_id request call_next w w1 cid.
Proof.
  intros Hrun Hctx. split; [exact Hctx|].
  rewrite Hrun. destruct (call_next request w1) as [[response|e] w2].
  - eexists. split; [reflexivity|]. apply headers_get_setitem.
  - reflexivity.
Qed.

(** A missing header and an empty one both make the middleware draw a
    fresh identifier. *)
Lemma dispatch_generates `{PyFloat} request call_next w :
  headers_get (req_headers request) CorrelationIdMiddleware.HEADER_NAME = None
  \/ headers_get (req_headers request) CorrelationIdMiddleware.HEADER_NAME = Some "" ->
  answers_with_id request call_next w (after_generating w) (generated_id w).
Proof.
  intros Hfalsy. apply dispatch_with_id; [|reflexivity].
  unfold CorrelationIdMiddleware.dispatch, or_else.
  destruct Hfalsy as [-> | ->]; run_M; reflexivity.
Qed.

(** C4 (as amended). A request without the [X-Correlation-ID] header
    gets a freshly generated, non-empty identifier: it is in the
    context variable when the downstream application starts and in the
    response header. A request that supplies a non-empty value gets
    exactly that value, in the context variable and in the response
    header. *)
Theorem correlation_id_generated_or_echoed `{PyFloat} request call_next w :
  (headers_get (req_headers request) CorrelationIdMiddleware.HEADER_NAME = None ->
     generated_id w <> ""
     /\ answers_with_id request call_next w (after_generating w) (generated_id w))
  /\ (forall v,
        headers_get (req_headers request) CorrelationIdMiddleware.HEADER_NAME = Some v ->
        v <> "" ->
        answers_with_id request call_next w (with_correlation_id_ctx v w) v).
Proof.
  split.
  - intros Habsent. split; [apply str_uuid4_nonempty|].
    apply dispatch_generates. now left.
  - intros v Hsupplied Hv. apply dispatch_with_id; [|reflexivity].
    unfold CorrelationIdMiddleware.dispatch, or_else.
    rewrite Hsupplied, (truthy_nonempty v Hv). run_M. reflexivity.
Qed.

(** The theorem at a request without the header and at one that
    supplies [req-42]. *)
Lemma correlation_id_generated_or_echoed_witness :
  (headers_get (req_headers (get_request "/api/v1/examples" []))
     CorrelationIdMiddleware.HEADER_NAME = None
   /\ generated_id quiet_world <> ""
   /\ answers_with_id (get_request "/api/v1/examples" []) plain_downstream
        quiet_world (after_generating quiet_world) (generated_id quiet_world))
  /\ (headers_get
        (req_headers (get_request "/api/v1/examples" [("x-correlation-id", "req-42")]))
        CorrelationIdMiddleware.HEADER_NAME = Some "req-42"
      /\ "req-42" <> ""
      /\ answers_with_id
           (get_request "/api/v1/examples" [("x-correlation-id", "req-42")])
           plain_downstream quiet_world
           (with_correlation_id_ctx "req-42" quiet_world) "req-42").
Proof.
  split.
  - split; [reflexivity|].
    apply (correlation_id_generated_or_echoed
             (get_request "/api/v1/examples" []) plain_downstream quiet_world).
    reflexivity.
  - split; [reflexivity|]. split; [discriminate|].
    apply (correlation_id_generated_or_echoed
             (get_request "/api/v1/examples" [("x-correlation-id", "req-42")])
             plain_downstream quiet_world).
    + reflexivity.
    + discriminate.
Defined.

(** C4, refuted as stated: a request that supplies the empty string in
    [X-Correlation-ID] does not get the empty string back. *)
Lemma empty_correlation_id_not_echoed :
  ~ (forall (request : Request) (call_next : CallNext (H := Q_float)) (w : World)
            (v : string) (response : Response) (w' : World),
       headers_get (req_headers request) CorrelationIdMiddleware.HEADER_NAME = Some v ->
       CorrelationIdMiddleware.dispatch request call_next w = (Ok response, w') ->
       headers_get (headers response) CorrelationIdMiddleware.HEADER_NAME = Some v).
Proof.
  intros claim.
  pose proof (claim (get_request "/api/v1/examples" [("x-correlation-id", "")])
                plain_downstream quiet_world "" _ _ eq_refl eq_refl) as Hecho.
  vm_compute in Hecho. discriminate.
Qed.

(** C10. A request whose [X-Correlation-ID] header is present but
    empty is treated like one without the header: a freshly generated
    identifier is stored in the context variable and echoed in the
    response header. *)
Theorem empty_correlation_id_regenerated `{PyFloat} request call_next w
    (Hempty : headers_get (req_headers request) CorrelationIdMiddleware.HEADER_NAME
              = Some "") :
  generated_id w <> ""
  /\ answers_with_id request call_next w (after_generating w) (generated_id w).
Proof.
  split; [apply str_uuid4_nonempty|].
  apply dispatch_generates. now right.
Qed.

(** The theorem at a request whose header is empty: the identifier is
    the UUID printed from the next random draw. *)
Lemma empty_correlation_id_regenerated_witness :
  headers_get
    (req_headers (get_request "/api/v1/examples" [("x-correlation-id", "")]))
    CorrelationIdMiddleware.HEADER_NAME = Some ""
  /\ generated_id quiet_world = "00000000-0000-4000-8000-000000000000"
  /\ generated_id quiet_world <> ""
  /\ answers_with_id
       (get_request "/api/v1/examples" [("x-correlation-id", "")])
       plain_downstream quiet_world
       (after_generating quiet_world) (generated_id quiet_world).
Proof.
  split; [reflexivity|]. split; [reflexivity|].
  apply (empty_correlation_id_regenerated
           (get_request "/api/v1/examples" [("x-correlation-id", "")])
           plain_downstream quiet_world).
  reflexivity.
Defined.

(** C9. When the downstream application returns a response, the
    logging middleware returns that response and appends to the log
    exactly one [http_request] event with method, path, status code,
    duration in milliseconds rounded to two decimals and client
    address, unless the path starts with [/health], in which case it
    appends nothing. *)
Theorem request_logged_once_unless_health `{PyFloat} request call_next w :
  let t0 := perf_clock w (perf_reads w) in
  match call_next request (with_perf_reads (S (perf_reads w)) w) with
  | (Ok response, w1) =>
      exists w2,
        RequestLoggingMiddleware.dispatch request call_next w = (Ok response, w2)
        /\ log w2 =
           (log w1
            ++ if startswith (req_url_path request) "/health" then []
               else [http_request_event request response t0
                       (perf_clock w1 (perf_reads w1))])%list
  | (Raised e, w1) =>
      RequestLoggingMiddleware.dispatch request call_next w = (Raised e, w1)
  end.
Proof.
  intros t0. unfold RequestLoggingMiddleware.dispatch. run_M.
  destruct (call_next request _) as [[response|e] w1]; [|reflexivity].
  destruct (startswith (req_url_path request) "/health"); cbn.
  - eexists. split; [reflexivity|]. cbn. now rewrite app_nil_r.
  - eexists. split; [reflexivity|]. reflexivity.
Qed.
End MiddlewareProps.

(** ** Security headers and the middleware stack *)
Module StackProps.
Import Middleware Main.

(** Every response start that goes through the security middleware
    leaves it carrying the six headers; other events are forwarded
    unchanged. *)
Lemma send_wrapper_forwards `{PyFloat} (send : Send) (message : Message) :
  exists forwarded,
    SecurityHeadersMiddleware.send_wrapper send message = send forwarded
    /\ if bool_decide (msg_type message = "http.response.start")
       then Forall (carries forwarded) SecurityHeadersMiddleware.security_headers
       else forwarded = message.
Proof.
  unfold SecurityHeadersMiddleware.send_wrapper.
  destruct (bool_decide (msg_type message = "http.response.start")).
  - eexists. split; [reflexivity|].
    apply Forall_forall. intros header Hin. unfold carries. cbn.
    apply elem_of_app. right. exact Hin.
  - eexists. split; reflexivity.
Qed.

(** [create_app] puts the security middleware innermost among the
    user middleware: [add_middleware] prepends, and it is added first. *)
Lemma create_app_layers `{PyFloat} cors_origins router :
  create_app cors_origins router =
  ServerErrorMiddleware
    (TraceMiddleware
       (BaseHTTPMiddleware CorrelationIdMiddleware.dispatch
          (BaseHTTPMiddleware RequestLoggingMiddleware.dispatch
             (CORSMiddleware cors_origins
                (SecurityHeadersMiddleware.call
                   (ExceptionMiddleware router)))))).
Proof. reflexivity. Qed.

(** A response produced by a route does leave with the six headers. *)
Example found_example_secured :
  match wire (create_app (H := Q_float) ["*"] (get_example_route {["42" := "{}"]})
                (http_get "/api/v1/examples/42" []) server_send quiet_world).2 with
  | start :: _ =>
      msg_status start = 200
      /\ Forall (carries start) SecurityHeadersMiddleware.security_headers
  | [] => False
  end.
Proof.
  vm_compute wire. split; [reflexivity|].
  unfold carries. cbn. repeat constructor; set_solver.
Qed.

(** C6, evaluated where it fails. [GET /api/v1/examples/<unknown id>]
    makes the endpoint raise [NotFoundError]; no handler is
    registered for it, so [ServerErrorMiddleware], which sits outside
    the security middleware, answers 500 and that response carries
    none of the six security headers (nor the correlation
    identifier). *)
Theorem error_response_lacks_security_headers :
  exists start rest,
    missing_example_wire = start :: rest
    /\ msg_type start = "http.response.start"
    /\ msg_status start = 500
    /\ Forall (fun header => ~ carries start header)
              SecurityHeadersMiddleware.security_headers
    /\ headers_get (default [] (msg_headers start))
         CorrelationIdMiddleware.HEADER_NAME = None.
Proof.
  do 2 eexists. split; [vm_compute; reflexivity|].
  split; [reflexivity|]. split; [reflexivity|]. split; [|reflexivity].
  unfold carries. cbn.
  repeat constructor; intros Hin;
    repeat (apply elem_of_cons in Hin as [Hin|Hin]; [discriminate|]);
    inversion Hin.
Qed.
End StackProps.

(** ** Further properties: logging context *)
Module LoggingProps.
Import Logging.

Ltac run_M :=
  unfold mbind, M_bind, bind, mret, M_ret, ret, ctx_get, ctx_set, new_uuid4,
    get_settings_version;
  cbn -[insert].

Lemma truthy_empty : truthy "" = false.
Proof. reflexivity. Qed.

Lemma truthy_true_nonempty s : truthy s = true -> s <> "".
Proof. intros Ht ->. discriminate. Qed.

(** X1. [get_correlation_id] always returns a non-empty identifier and
    leaves it in the context variable; an identifier already there is
    returned as it is, without any other change; calling it again
    returns the same identifier and changes nothing. *)
Theorem get_correlation_id_stable `{PyFloat} (w : World) :
  exists cid w1,
    get_correlation_id w = (Ok cid, w1)
    /\ cid <> ""
    /\ correlation_id_ctx w1 = cid
    /\ get_correlation_id w1 = (Ok cid, w1)
    /\ (correlation_id_ctx w <> "" -> cid = correlation_id_ctx w /\ w1 = w)
    /\ (correlation_id_ctx w = "" -> cid = generated_id w /\ w1 = after_generating w).
Proof.
  unfold get_correlation_id. run_M.
  destruct (truthy (correlation_id_ctx w)) eqn:Ht.
  - exists (correlation_id_ctx w), w. cbn.
    pose proof (truthy_true_nonempty _ Ht) as Hne.
    rewrite Ht. repeat split; auto; congruence.
  - assert (Hempty : correlation_id_ctx w = "").
    { unfold truthy in Ht. apply negb_false_iff, bool_decide_eq_true_1 in Ht. exact Ht. }
    exists (generated_id w), (after_generating w).
    pose proof (str_uuid4_nonempty (urandom w (urandom_reads w))) as Hne.
    fold (generated_id w) in Hne.
    unfold after_generating. cbn. rewrite (truthy_nonempty _ Hne).
    repeat split; auto; congruence.
Qed.

(** X2. The two enriching processors, in the order [configure_logging]
    lists them, never generate an identifier and change nothing in the
    process state: the event gets [correlation_id] (the literal
    [unknown] when no identifier is set), [service], [version] and
    [environment], overwriting fields of those names; [tenant_id] is
    added only for a service generated with a database and a non-empty
    tenant; every other field of the caller is kept. *)
Theorem log_enrichment_fields `{PyFloat} values tenant_id app_name environment
    (event_dict : gmap string LogValue) (w : World) :
  exists enriched,
    (add_context values tenant_id event_dict
       ≫= add_service_context app_name environment) w = (Ok enriched, w)
    /\ enriched !! "correlation_id"
       = Some (LStr (if bool_decide (correlation_id_ctx w = "") then "unknown"
                     else correlation_id_ctx w))
    /\ enriched !! "service" = Some (LStr app_name)
    /\ enriched !! "version" = Some (LStr (settings_version w))
    /\ enriched !! "environment" = Some (LStr environment)
    /\ enriched !! "tenant_id"
       = (if negb (bool_decide (values_database values = "none")) && truthy tenant_id
          then Some (LStr tenant_id) else event_dict !! "tenant_id")
    /\ forall key,
         key ∉ ["correlation_id"; "service"; "version"; "environment"; "tenant_id"] ->
         enriched !! key = event_dict !! key.
Proof.
  unfold add_context, add_service_context. run_M.
  eexists. split; [reflexivity|].
  assert (Hcid : (if truthy (correlation_id_ctx w) then correlation_id_ctx w else "unknown")
                 = (if bool_decide (correlation_id_ctx w = "") then "unknown"
                    else correlation_id_ctx w)).
  { unfold truthy. destruct (bool_decide (correlation_id_ctx w = "")); reflexivity. }
  rewrite Hcid.
  destruct (negb (bool_decide (values_database values = "none"))), (truthy tenant_id);
    cbn -[insert];
    (repeat split; [by simplify_map_eq ..|]);
    intros key Hkey;
    repeat (apply not_elem_of_cons in Hkey as [? Hkey]);
    by simplify_map_eq.
Qed.
End LoggingProps.

(** ** Further properties: connection life cycle *)
Module LifecycleProps.
Import Health.

Ltac run_M :=
  unfold mbind, M_bind, bind, mret, M_ret, ret, raise, try_except, try_finally, io,
    await_checker, get_settings_version, now_isoformat, perf_counter, logger_error,
    logger_info, logger_emit, noting, RedisPool.set_redis_pool, Redis.get_redis_pool,
    Redis.client_ping, Redis.client_aclose, Session.select_1,
    Lifespan.configure_logging;
  cbn -[insert size].

(** X4. Once [close_redis] has returned, the pool is gone: closing
    again does nothing, [check_redis_health] reports [unhealthy] with
    the message [Redis pool not initialized] and no latency, without
    touching clock, server or log, and [get_redis] raises
    [RuntimeError] before the endpoint gets a client. *)
Theorem closed_pool_is_reported `{PyFloat} (disconnect : M unit) (w w' : World)
    (Hclosed : RedisPool.close_redis disconnect w = (Ok tt, w')) :
  redis_pool w' = None
  /\ (forall disconnect', RedisPool.close_redis disconnect' w' = (Ok tt, w'))
  /\ Redis.check_redis_health w'
     = (Ok {| status := UNHEALTHY; latency_ms := None;
              message := Some "Redis pool not initialized" |}, w')
  /\ (forall A (use : M A),
         RedisPool.get_redis use w'
         = (Raised (Main.RuntimeError "Redis pool not initialized"), w')).
Proof.
  assert (Hpool : redis_pool w' = None).
  { revert Hclosed. unfold RedisPool.close_redis. run_M.
    destruct (redis_pool w) as [url|] eqn:Epool.
    - run_M. destruct (disconnect _) as [[[]|e] w1]; [|discriminate].
      intros [= <-]. reflexivity.
    - intros [= <-]. exact Epool. }
  split; [exact Hpool|].
  unfold RedisPool.close_redis, Redis.check_redis_health, RedisPool.get_redis.
  run_M. rewrite Hpool. repeat split.
Qed.

Lemma closed_pool_is_reported_witness :
  exists w' : World (H := Q_float),
    RedisPool.close_redis (noting "disconnect") quiet_world = (Ok tt, w')
    /\ redis_pool w' = None
    /\ (forall disconnect', RedisPool.close_redis disconnect' w' = (Ok tt, w'))
    /\ Redis.check_redis_health w'
       = (Ok {| status := UNHEALTHY; latency_ms := None;
                message := Some "Redis pool not initialized" |}, w')
    /\ (forall A (use : M A),
           RedisPool.get_redis use w'
           = (Raised (Main.RuntimeError "Redis pool not initialized"), w')).
Proof.
  eexists. split; [reflexivity|].
  apply (closed_pool_is_reported (noting "disconnect") quiet_world). reflexivity.
Defined.

(** X5. [init_redis] assigns the pool as soon as
    [ConnectionPool.from_url] has built it, before it tests the
    connection. When [from_url] raises, the pool stays what it was;
    otherwise the pool is set afterwards whatever the test does, also
    when [init_redis] raises. It returns exactly when [from_url], the
    ping and the close all succeed, and only then logs
    [redis_connection_established]; otherwise it raises and has logged
    the first event alone. *)
Theorem init_redis_assigns_pool_first `{PyFloat} (from_url : string -> Outcome)
    (redis_url : string) (w : World) :
  exists outcome w',
    RedisPool.init_redis from_url redis_url w = (outcome, w')
    /\ redis_pool w'
       = (if is_ok (from_url redis_url) then Some redis_url else redis_pool w)
    /\ (outcome = Ok tt
        <-> from_url redis_url = Ok tt /\ redis_ping w = Ok tt /\ redis_aclose w = Ok tt)
    /\ log w' =
       (log w
        ++ {| log_level := "info"; log_event := "initializing_redis_connection";
              log_fields := [] |}
        :: match outcome with
           | Ok _ => [{| log_level := "info"; log_event := "redis_connection_established";
                         log_fields := [] |}]
           | Raised _ => []
           end)%list.
Proof.
  unfold RedisPool.init_redis. run_M.
  destruct (from_url redis_url) as [[]|e0] eqn:Eurl; cbn;
    [destruct (redis_ping w) as [[]|e1] eqn:Eping; cbn;
     [destruct (redis_aclose w) as [[]|e2] eqn:Eclose; cbn|]|].
  all: do 2 eexists; split; [reflexivity|]; split; [reflexivity|].
  all: split; [intuition congruence|].
  all: cbn; rewrite <- ?app_assoc; reflexivity.
Qed.

(** X6. [get_session] awaits [commit] exactly when the endpoint
    returned, [rollback] exactly when the endpoint or the commit raised
    an instance of [Exception], and [close] always and last: an
    exception outside [Exception], such as the cancellation of the
    request, closes the session without [get_session] rolling it back.
    The caller gets the endpoint's result only if endpoint, commit and
    close all succeeded. *)
Theorem get_session_commits_or_rolls_back `{PyFloat} {A} (use : M A)
    (committing rolling_back closing : Outcome) (w : World) :
  let run :=
    DbSession.get_session (session_method "commit" committing)
      (session_method "rollback" rolling_back) (session_method "close" closing)
      use w in
  events_since (length (log (use w).2)) run.2
  = match (use w).1 with
    | Ok _ =>
        match committing with
        | Ok _ => ["commit"; "close"]
        | Raised e =>
            if isinstance_Exception e then ["commit"; "rollback"; "close"]
            else ["commit"; "close"]
        end
    | Raised e =>
        if isinstance_Exception e then ["rollback"; "close"] else ["close"]
    end
  /\ is_ok run.1 = is_ok (use w).1 && is_ok committing && is_ok closing.
Proof.
  unfold DbSession.get_session, session_method, events_since. run_M.
  destruct (use w) as [[result|e] w1]; cbn;
    [destruct committing as [[]|ec]; cbn; [|destruct (isinstance_Exception ec); cbn]
    |destruct (isinstance_Exception e), committing as [[]|ec]; cbn];
    destruct rolling_back as [[]|er], closing as [[]|el]; cbn.
  all: rewrite <- ?app_assoc, drop_app_length; split; reflexivity.
Qed.

(** X7. [lifespan] initialises the database connection only. In a
    service generated with the cache, where the pool starts out unset,
    a readiness probe served during the application's life therefore
    answers 503 [degraded], with the redis entry saying [Redis pool not
    initialized], although the database is reachable. *)
Theorem lifespan_leaves_redis_uninitialised `{PyFloat} values environment
    (dispose : M unit) (w : World)
    (Hcache : redis_enabled values = true)
    (Hpool : redis_pool w = None)
    (Hdb : db_select_1 w = Ok tt)
    (Hdispose : forall w0, (dispose w0).1 = Ok tt) :
  exists body w',
    Lifespan.lifespan values environment dispose
      (GET_health_ready values Main.app_checkers) w = (Ok (503, body), w')
    /\ resp_status body = DEGRADED
    /\ (components body ≫= (.!! "redis"))
       = Some {| status := UNHEALTHY; latency_ms := None;
                 message := Some "Redis pool not initialized" |}.
Proof.
  unfold Lifespan.lifespan, DbSession.init_db, DbSession.close_db, GET_health_ready,
    serve_with_response, readiness, Main.app_checkers, Session.check_db_health,
    Redis.check_redis_health.
  rewrite Hcache.
  destruct (db_enabled values) eqn:Edb; run_M;
    repeat (progress (rewrite ?Hdb, ?Hpool, ?HealthProps.size_insert_nonzero;
                      cbn -[insert size])).
  - match goal with |- context [dispose ?w0] =>
      pose proof (Hdispose w0) as Hd; destruct (dispose w0) as [[[]|e] w1];
        [|discriminate Hd] end.
    do 2 eexists. split; [reflexivity|]. split; [reflexivity|].
    cbn. by simplify_map_eq.
  - do 2 eexists. split; [reflexivity|]. split; [reflexivity|].
    cbn. by simplify_map_eq.
Qed.

Lemma lifespan_leaves_redis_uninitialised_witness :
  redis_enabled full_values = true
  /\ redis_pool (with_redis_pool None quiet_world) = None
  /\ db_select_1 (with_redis_pool None quiet_world) = Ok tt
  /\ exists body w',
       Lifespan.lifespan full_values "production" (noting "dispose")
         (GET_health_ready full_values Main.app_checkers)
         (with_redis_pool None quiet_world) = (Ok (503, body), w')
       /\ resp_status body = DEGRADED
       /\ (components body ≫= (.!! "redis"))
          = Some {| status := UNHEALTHY; latency_ms := None;
                    message := Some "Redis pool not initialized" |}.
Proof.
  split; [reflexivity|]. split; [reflexivity|]. split; [reflexivity|].
  apply (lifespan_leaves_redis_uninitialised full_values "production"
           (noting "dispose") (with_redis_pool None quiet_world));
    reflexivity.
Defined.
End LifecycleProps.

(** ** Further properties: readiness with the service's own checkers *)
Module ReadinessProps.
Import Health.

(** X8. With the checkers the service ships, the readiness endpoint
    raises exactly when a configured probe raises an exception that is
    no instance of [Exception], the cancellation of the request for
    one, and that exception is what comes out. Otherwise its answer
    follows from what the probes find: it is [unhealthy] exactly when
    the configured database probe fails, [degraded] exactly when the
    database is fine and the configured redis check fails (pool unset,
    ping or close raising), [healthy] otherwise, and the status code is
    200 exactly for [healthy], else 503. *)
Theorem app_readiness_by_outcomes `{PyFloat} (values : TemplateValues) (w : World) :
  match readiness_interrupted values w with
  | Some e =>
      exists w', GET_health_ready values Main.app_checkers w = (Raised e, w')
  | None =>
      exists code body w',
        GET_health_ready values Main.app_checkers w = (Ok (code, body), w')
        /\ (resp_status body = UNHEALTHY <-> db_failing values w)
        /\ (resp_status body = DEGRADED
            <-> ~ db_failing values w /\ redis_failing values w)
        /\ (resp_status body = HEALTHY
            <-> ~ db_failing values w /\ ~ redis_failing values w)
        /\ code = (if bool_decide (resp_status body = HEALTHY) then 200 else 503)
  end.
Proof.
  unfold GET_health_ready, serve_with_response, readiness, Main.app_checkers,
    Session.check_db_health, Redis.check_redis_health, db_failing, redis_failing,
    readiness_interrupted, escaping, redis_probe.
  destruct (db_enabled values) eqn:Edb, (redis_enabled values) eqn:Ere;
    destruct (db_select_1 w) as [[]|edb] eqn:Hdb;
    try destruct (isinstance_Exception edb) eqn:Iedb;
    destruct (redis_pool w) as [url|] eqn:Hpool;
    destruct (redis_ping w) as [[]|eping] eqn:Hping;
    try destruct (isinstance_Exception eping) eqn:Ieping;
    destruct (redis_aclose w) as [[]|eclose] eqn:Hclose;
    try destruct (isinstance_Exception eclose) eqn:Ieclose.
  all: LifecycleProps.run_M;
    repeat (progress (rewrite ?Hdb, ?Hpool, ?Hping, ?Hclose, ?Iedb, ?Ieping, ?Ieclose,
                        ?HealthProps.size_insert_nonzero, ?HealthProps.size_empty_zero;
                      cbn -[insert size])).
  all: try (eexists; reflexivity).
  all: do 3 eexists; split; [reflexivity|].
  all: cbn; unfold HTTP_503_SERVICE_UNAVAILABLE.
  all: repeat split; try reflexivity; try discriminate; intuition congruence.
Qed.

(** X9. The body of the readiness reply: [version] is the configured
    version and [timestamp] the next reading of the wall clock; the
    components map is absent exactly when no component is configured,
    and otherwise holds, under [database] and [redis], exactly what the
    configured checkers returned. *)
Theorem readiness_reports_each_component `{PyFloat} values db redis (w : World) :
  exists code body w',
    GET_health_ready values (reporting_checkers db redis) w = (Ok (code, body), w')
    /\ version body = settings_version w
    /\ timestamp body = wall_clock w (wall_reads w)
    /\ (components body = None
        <-> db_enabled values = false /\ redis_enabled values = false)
    /\ forall m, components body = Some m ->
         m !! "database" = (if db_enabled values then Some db else None)
         /\ m !! "redis" = (if redis_enabled values then Some redis else None)
         /\ dom m ⊆ {["database"; "redis"]}.
Proof.
  HealthProps.run_readiness values db redis.
  all: do 3 eexists; split; [reflexivity|].
  all: cbn -[insert]; split; [reflexivity|]; split; [reflexivity|].
  all: split; [intuition congruence|].
  all: intros m Hm; simplify_eq; repeat split; try (by simplify_map_eq).
  all: rewrite ?dom_insert_L, ?dom_empty_L; intros x; set_unfold; tauto.
Qed.
End ReadinessProps.

(** ** Further properties: the middleware classes *)
Module MiddlewareMoreProps.
Import Middleware.

Lemma headers_lookup_app_hit (l l' : HeaderList) k v :
  headers_lookup l k = Some v -> headers_lookup (l ++ l')%list k = Some v.
Proof.
  induction l as [|[k' v'] t IH]; simpl; [discriminate|].
  destruct (bool_decide (k' = k)); [auto|exact IH].
Qed.

Lemma headers_lookup_app_skip (l l' : HeaderList) k :
  headers_lookup l k = None -> headers_lookup (l ++ l')%list k = headers_lookup l' k.
Proof.
  induction l as [|[k' v'] t IH]; simpl; [reflexivity|].
  destruct (bool_decide (k' = k)); [discriminate|exact IH].
Qed.

(** X10. The security middleware only appends. A response start leaves
    with its status, its body and its own headers first and unchanged,
    followed by the six security headers; so a header the application
    had set itself, [cache-control] included, is still what a lookup by
    name finds, and the security value is found only where the
    application had set none. *)
Theorem security_headers_only_appended `{PyFloat} (send : Send) (message : Message)
    (Hstart : msg_type message = "http.response.start") :
  let forwarded := SecurityHeadersMiddleware.add_security_headers message in
  let own := default [] (msg_headers message) in
  SecurityHeadersMiddleware.send_wrapper send message = send forwarded
  /\ msg_status forwarded = msg_status message
  /\ msg_body forwarded = msg_body message
  /\ msg_headers forwarded
     = Some (own ++ SecurityHeadersMiddleware.security_headers)%list
  /\ forall name,
       headers_lookup (default [] (msg_headers forwarded)) name
       = match headers_lookup own name with
         | Some value => Some value
         | None => headers_lookup SecurityHeadersMiddleware.security_headers name
         end.
Proof.
  intros forwarded own. unfold SecurityHeadersMiddleware.send_wrapper.
  rewrite bool_decide_eq_true_2 by exact Hstart.
  repeat split. intros name. cbn. fold own.
  destruct (headers_lookup own name) as [value|] eqn:E.
  - apply headers_lookup_app_hit, E.
  - apply headers_lookup_app_skip, E.
Qed.

Lemma security_headers_only_appended_witness :
  let message :=
    {| msg_type := "http.response.start"; msg_status := 200;
       msg_headers := Some [("cache-control", "max-age=60")]; msg_body := "";
       msg_more_body := false |} in
  msg_type message = "http.response.start"
  /\ headers_lookup
       (default [] (msg_headers (SecurityHeadersMiddleware.add_security_headers message)))
       "cache-control" = Some "max-age=60"
  /\ headers_lookup
       (default [] (msg_headers (SecurityHeadersMiddleware.add_security_headers message)))
       "x-frame-options" = Some "DENY".
Proof.
  intros message. split; [reflexivity|].
  pose proof (security_headers_only_appended (H := Q_float) Main.server_send message
                eq_refl) as (_ & _ & _ & _ & Hlookup).
  split; rewrite Hlookup; reflexivity.
Defined.

Lemma filter_never {A} (P : A -> Prop) `{!forall x, Decision (P x)} (l : list A) :
  (forall x, ~ P x) -> filter P l = [].
Proof.
  intros Hnever. induction l as [|x t IH]; [reflexivity|].
  rewrite filter_cons_False by apply Hnever. exact IH.
Qed.

Lemma filter_other_replace (l : HeaderList) k v :
  other_headers (headers_replace l k v) k = other_headers l k.
Proof.
  unfold other_headers, HeaderList in *.
  induction l as [|[k' v'] t IH]; cbn [headers_replace]; [reflexivity|].
  destruct (bool_decide (k' = k)) eqn:E.
  - apply bool_decide_eq_true_1 in E as ->.
    rewrite !filter_cons_False by (cbn; intros Hn; apply Hn; reflexivity).
    rewrite list_filter_filter. apply list_filter_iff. intros [a b]. cbn. tauto.
  - apply bool_decide_eq_false_1 in E.
    rewrite !filter_cons_True by (cbn; congruence). now rewrite IH.
Qed.

Lemma count_replace (l : HeaderList) k v :
  is_Some (headers_lookup l k) -> header_count (headers_replace l k v) k = 1%nat.
Proof.
  unfold header_count, HeaderList in *.
  induction l as [|[k' v'] t IH]; cbn [headers_replace headers_lookup].
  - intros [x Hx]. discriminate.
  - destruct (bool_decide (k' = k)) eqn:E.
    + intros _. rewrite filter_cons_True by reflexivity.
      rewrite list_filter_filter, filter_never; [reflexivity|].
      intros [a b]. cbn. tauto.
    + apply bool_decide_eq_false_1 in E. intros Hs.
      rewrite filter_cons_False by (cbn; congruence). auto.
Qed.

Lemma lookup_none_count (l : list (string * string)) k :
  headers_lookup l k = None -> filter (fun p => p.1 = k) l = [].
Proof.
  induction l as [|[k' v'] t IH]; cbn [headers_lookup]; [reflexivity|].
  destruct (bool_decide (k' = k)) eqn:E; [discriminate|].
  apply bool_decide_eq_false_1 in E. intros Hn.
  rewrite filter_cons_False by (cbn; congruence). auto.
Qed.

(** [response.headers[key] = value] leaves one entry of that name and
    keeps every other entry, in order. *)
Lemma headers_setitem_single (l : HeaderList) key value :
  header_count (headers_setitem l key value) (lower key) = 1%nat
  /\ other_headers (headers_setitem l key value) (lower key)
     = other_headers l (lower key).
Proof.
  unfold headers_setitem.
  destruct (headers_lookup l (lower key)) as [old|] eqn:E.
  - split; [apply count_replace; rewrite E; eauto | apply filter_other_replace].
  - unfold header_count, other_headers, HeaderList in *. rewrite !filter_app.
    rewrite (lookup_none_count _ _ E).
    rewrite (filter_cons_True (fun p : string * string => p.1 = lower key))
      by reflexivity.
    rewrite (filter_cons_False (fun p : string * string => p.1 ≠ lower key))
      by (cbn; intros Hn; apply Hn; reflexivity).
    rewrite !filter_nil, app_nil_r. split; reflexivity.
Qed.


(** X12. A handler that asks [get_correlation_id] while the request is
    being served gets the very identifier the client receives in the
    response header, and that identifier is never empty. *)
Theorem handler_sees_request_id `{PyFloat} (request : Request) (w : World) :
  exists response w',
    CorrelationIdMiddleware.dispatch request id_echo_downstream w = (Ok response, w')
    /\ body response <> ""
    /\ headers_get (headers response) CorrelationIdMiddleware.HEADER_NAME
       = Some (body response)
    /\ correlation_id_ctx w' = body response.
Proof.
  unfold CorrelationIdMiddleware.dispatch, or_else, id_echo_downstream,
    Logging.get_correlation_id.
  destruct (headers_get _ _) as [v|]; [destruct (truthy v) eqn:Hv|];
    MiddlewareProps.run_M; unfold ctx_get; cbn.
  - rewrite Hv. do 2 eexists. split; [reflexivity|]. cbn.
    split; [exact (LoggingProps.truthy_true_nonempty _ Hv)|]. split; reflexivity.
  - rewrite (truthy_nonempty _ (str_uuid4_nonempty (urandom w (urandom_reads w)))).
    do 2 eexists. split; [reflexivity|]. cbn.
    split; [apply str_uuid4_nonempty|]. split; reflexivity.
  - rewrite (truthy_nonempty _ (str_uuid4_nonempty (urandom w (urandom_reads w)))).
    do 2 eexists. split; [reflexivity|]. cbn.
    split; [apply str_uuid4_nonempty|]. split; reflexivity.
Qed.
End MiddlewareMoreProps.

(** ** Further properties: the in-memory example service *)
Module ExampleServiceProps.
Import ExampleService.

Lemma dict_get_set_eq d key value : dict_get (dict_set d key value) key = Some value.
Proof.
  induction d as [|[k v] rest IH]; cbn.
  - now rewrite bool_decide_eq_true_2.
  - destruct (bool_decide (k = key)) eqn:E; cbn; rewrite E; [reflexivity|exact IH].
Qed.

Lemma dict_get_set_ne d key value other :
  other <> key -> dict_get (dict_set d key value) other = dict_get d other.
Proof.
  intros Hne. induction d as [|[k v] rest IH]; cbn.
  - now rewrite bool_decide_eq_false_2 by congruence.
  - destruct (bool_decide (k = key)) eqn:E; cbn.
    + apply bool_decide_eq_true_1 in E as ->.
      now rewrite bool_decide_eq_false_2 by congruence.
    + now rewrite IH.
Qed.

Lemma dict_get_none_keys d key : dict_get d key = None <-> key ∉ map fst d.
Proof.
  induction d as [|[k v] rest IH]; cbn.
  - split; [intros _; apply not_elem_of_nil | reflexivity].
  - rewrite not_elem_of_cons. destruct (bool_decide (k = key)) eqn:E.
    + apply bool_decide_eq_true_1 in E. split; [discriminate|]. intros [Hne _]. congruence.
    + apply bool_decide_eq_false_1 in E. rewrite IH. intuition congruence.
Qed.

Lemma dict_set_keys d key value :
  map fst (dict_set d key value)
  = if dict_contains d key then map fst d else (map fst d ++ [key])%list.
Proof.
  unfold dict_contains.
  induction d as [|[k v] rest IH]; cbn.
  - reflexivity.
  - destruct (bool_decide (k = key)) eqn:E; cbn.
    + first [reflexivity | rewrite bool_decide_eq_true_2 by eauto; reflexivity].
    + rewrite IH. destruct (bool_decide (is_Some (dict_get rest key))); reflexivity.
Qed.

Lemma dict_set_well_formed d key value :
  well_formed d -> well_formed (dict_set d key value).
Proof.
  unfold well_formed. intros Hwf. rewrite dict_set_keys.
  unfold dict_contains. case_bool_decide as Hc; [exact Hwf|].
  apply NoDup_app. split; [exact Hwf|]. split; [|apply NoDup_singleton].
  intros x Hx Hin. apply list_elem_of_singleton in Hin as ->.
  apply Hc. destruct (dict_get d key) eqn:E; [eauto|].
  apply dict_get_none_keys in E. contradiction.
Qed.

Lemma dict_del_keys_subset d key x :
  x ∈ map fst (dict_del d key) -> x ∈ map fst d.
Proof.
  induction d as [|[k v] rest IH]; cbn; [auto|].
  destruct (bool_decide (k = key)); cbn; rewrite ?elem_of_cons; intuition.
Qed.

Lemma dict_del_well_formed d key : well_formed d -> well_formed (dict_del d key).
Proof.
  unfold well_formed. induction d as [|[k v] rest IH]; cbn; [auto|].
  rewrite NoDup_cons. intros [Hk Hrest].
  destruct (bool_decide (k = key)); cbn; [exact Hrest|].
  apply NoDup_cons. split; [|auto].
  intros Hin. apply Hk. eapply dict_del_keys_subset, Hin.
Qed.

Lemma dict_get_del_eq d key : well_formed d -> dict_get (dict_del d key) key = None.
Proof.
  unfold well_formed. induction d as [|[k v] rest IH]; cbn; [auto|].
  rewrite NoDup_cons. intros [Hk Hrest].
  destruct (bool_decide (k = key)) eqn:E; cbn.
  - apply bool_decide_eq_true_1 in E as ->. now apply dict_get_none_keys.
  - rewrite E. auto.
Qed.

Lemma dict_get_del_ne d key other :
  other <> key -> dict_get (dict_del d key) other = dict_get d other.
Proof.
  intros Hne. induction d as [|[k v] rest IH]; cbn; [reflexivity|].
  destruct (bool_decide (k = key)) eqn:E; cbn.
  - apply bool_decide_eq_true_1 in E as ->.
    now rewrite bool_decide_eq_false_2 by congruence.
  - now rewrite IH.
Qed.

Section Service.
Context `{PyFloat} {ExampleResponse : Type}.
Variable validate : Item -> Result ExampleResponse.

Ltac run_M :=
  unfold mbind, M_bind, bind, mret, M_ret, ret, now_isoformat, uuid4, logger_info,
    logger_emit;
  cbn -[insert union size].

(** X13. [create] stores the new item under a freshly drawn UUID and
    returns its validation; a [get] of that UUID right afterwards gives
    the same response. The item carries the UUID as [id], the data's
    fields, and one clock reading as both [created_at] and
    [updated_at]; items under other keys are untouched. *)
Theorem create_then_get (_storage : Storage) (data : ExampleCreate) (w : World) :
  let example_id := uuid4_int (urandom w (urandom_reads w)) in
  let now := wall_clock w (wall_reads w) in
  exists item _storage' w',
    create validate _storage data w = (Ok (_storage', validate item), w')
    /\ dict_get _storage' example_id = Some item
    /\ get validate _storage' example_id
       = match validate item with
         | Ok response => Ok (Some response)
         | Raised e => Raised e
         end
    /\ item !! "id" = Some (VUuid example_id)
    /\ item !! "name" = Some (VStr (name data))
    /\ item !! "description" = Some (opt_str (description data))
    /\ item !! "is_active" = Some (VBool (is_active data))
    /\ item !! "created_at" = Some (VTime now)
    /\ item !! "updated_at" = Some (VTime now)
    /\ (forall other, other <> example_id ->
          dict_get _storage' other = dict_get _storage other)
    /\ (well_formed _storage -> well_formed _storage').
Proof.
  intros example_id now. unfold create. run_M. fold example_id now.
  do 3 eexists. split; [reflexivity|].
  split; [apply dict_get_set_eq|].
  split.
  { unfold get. rewrite dict_get_set_eq.
    rewrite bool_decide_eq_false_2; [reflexivity|].
    rewrite map_size_empty_iff. apply insert_non_empty. }
  unfold model_dump.
  repeat (split; [by simplify_map_eq|]).
  split; [intros other Hne; now apply dict_get_set_ne | apply dict_set_well_formed].
Qed.

(** X14. [delete] answers whether the key was there. Afterwards the key
    is gone and [get] finds nothing, whichever was the case; every
    other item stays; and deleting a missing key changes neither the
    storage nor the log. *)
Theorem delete_removes_only_that_item (_storage : Storage) (example_id : N)
    (w : World) (Hwf : well_formed _storage) :
  exists _storage' w',
    delete _storage example_id w
    = (Ok (_storage', dict_contains _storage example_id), w')
    /\ dict_get _storage' example_id = None
    /\ get validate _storage' example_id = Ok None
    /\ (forall other, other <> example_id ->
          dict_get _storage' other = dict_get _storage other)
    /\ well_formed _storage'
    /\ (dict_contains _storage example_id = false -> _storage' = _storage /\ w' = w).
Proof.
  unfold delete.
  destruct (dict_contains _storage example_id) eqn:Hc; run_M.
  - do 2 eexists. split; [reflexivity|].
    assert (Hgone : dict_get (dict_del _storage example_id) example_id = None)
      by now apply dict_get_del_eq.
    split; [exact Hgone|]. split; [unfold get; now rewrite Hgone|].
    split; [intros other Hne; now apply dict_get_del_ne|].
    split; [now apply dict_del_well_formed | discriminate].
  - assert (Hmiss : dict_get _storage example_id = None).
    { unfold dict_contains in Hc. apply bool_decide_eq_false_1 in Hc.
      destruct (dict_get _storage example_id); [exfalso; eauto | reflexivity]. }
    do 2 eexists. split; [reflexivity|].
    split; [exact Hmiss|]. split; [unfold get; now rewrite Hmiss|].
    repeat split; auto.
Qed.
End Service.

Lemma delete_removes_only_that_item_witness :
  well_formed [(7%N, model_dump {| name := "a"; description := None; is_active := true |})]
  /\ exists _storage' (w' : World (H := Q_float)),
       delete [(7%N, model_dump {| name := "a"; description := None;
                                   is_active := true |})] 7%N quiet_world
       = (Ok (_storage', true), w')
       /\ dict_get _storage' 7%N = None
       /\ get lenient _storage' 7%N = Ok None.
Proof.
  assert (Hwf : well_formed
                  [(7%N, model_dump {| name := "a"; description := None;
                                       is_active := true |})]).
  { apply NoDup_singleton. }
  split; [exact Hwf|].
  destruct (delete_removes_only_that_item (H := Q_float) lenient _ 7%N quiet_world Hwf)
    as (s' & w' & Hrun & Hgone & Hget & _).
  exists s', w'. split; [exact Hrun|]. split; [exact Hgone | exact Hget].
Defined.
End ExampleServiceProps.

(** ** Further properties: update and pagination of the example service *)
Module ExampleListingProps.
Import ExampleService.

Lemma slice_forward {A} (l : list A) (start count : Z) :
  0 <= start -> 0 <= count ->
  python_slice l start (start + count)
  = take (Z.to_nat count) (drop (Z.to_nat start) l).
Proof.
  intros Hstart Hcount. unfold python_slice, slice_index.
  rewrite (proj2 (Z.ltb_ge start 0)) by lia.
  rewrite (proj2 (Z.ltb_ge (start + count) 0)) by lia.
  destruct (Z_le_gt_dec (Z.of_nat (length l)) start) as [Hout|Hin].
  - rewrite Z.min_r by lia. rewrite Z.min_r by lia.
    rewrite !drop_ge by lia. now rewrite !take_nil.
  - rewrite (Z.min_l start) by lia.
    destruct (Z_le_gt_dec (start + count) (Z.of_nat (length l))) as [Hfit|Hover].
    + rewrite Z.min_l by lia. f_equal. lia.
    + rewrite Z.min_r by lia.
      rewrite !take_ge; [reflexivity | |]; rewrite length_drop; lia.
Qed.

Lemma slice_empty_window {A} (l : list A) (start : Z) :
  python_slice l start (start + 0) = [].
Proof.
  unfold python_slice. rewrite Z.add_0_r, Z.sub_diag. reflexivity.
Qed.

Lemma ceil_div_bounds (a b : Z) :
  0 < b -> (ceil_div a b - 1) * b < a <= ceil_div a b * b.
Proof.
  intros Hb. unfold ceil_div.
  pose proof (Z.div_mod (- a) b ltac:(lia)) as Hdm.
  pose proof (Z.mod_pos_bound (- a) b Hb) as Hmod.
  nia.
Qed.

Lemma ceil_div_unique (a b c : Z) :
  0 < b -> (c - 1) * b < a <= c * b -> ceil_div a b = c.
Proof.
  intros Hb Hc. pose proof (ceil_div_bounds a b Hb) as Hd. nia.
Qed.

(** Rounding the quotient to a grid finer than half the divisor keeps
    its ceiling. *)
Lemma div_half_even_ceil (a b s : Z) :
  0 < b -> 0 < s -> b < 2 * s ->
  ceil_div (div_half_even (a * s) b) s = ceil_div a b.
Proof.
  intros Hb Hs Hfine. apply ceil_div_unique; [exact Hs|].
  pose proof (ceil_div_bounds a b Hb) as Hc.
  set (c := ceil_div a b) in *.
  unfold div_half_even.
  pose proof (Z.div_mod (a * s) b ltac:(lia)) as Hdm.
  pose proof (Z.mod_pos_bound (a * s) b Hb) as Hmod.
  set (q := a * s / b) in *. set (r := (a * s) mod b) in *.
  assert (Hlow : (c - 1) * b * s + s <= b * q + r) by nia.
  assert (Hhigh : b * q + r <= c * b * s) by nia.
  destruct (2 * r <? b) eqn:H1; [apply Z.ltb_lt in H1|apply Z.ltb_ge in H1].
  - split; nia.
  - destruct (b <? 2 * r) eqn:H2; [apply Z.ltb_lt in H2|apply Z.ltb_ge in H2].
    + split; nia.
    + destruct (Z.even q); split; nia.
Qed.

Lemma scaled_le_below (a b : Z) :
  0 < a -> 0 < b ->
  scaled_le b (Z.log2 a - Z.log2 b - 1) a = true.
Proof.
  intros Ha Hb. unfold scaled_le.
  pose proof (Z.log2_spec a Ha) as [Hla _].
  pose proof (Z.log2_spec b Hb) as [_ Hlb].
  pose proof (Z.log2_nonneg a) as Hna. pose proof (Z.log2_nonneg b) as Hnb.
  set (la := Z.log2 a) in *. set (lb := Z.log2 b) in *.
  destruct (0 <=? la - lb - 1) eqn:Hd;
    [apply Z.leb_le in Hd|apply Z.leb_gt in Hd]; apply Z.leb_le.
  - assert (Hpow : 2 ^ la = 2 ^ Z.succ lb * 2 ^ (la - lb - 1)).
    { rewrite <- Z.pow_add_r by lia. f_equal. lia. }
    pose proof (Z.pow_pos_nonneg 2 (la - lb - 1) ltac:(lia) Hd) as Hpos. nia.
  - assert (Hpow : 2 ^ Z.succ lb = 2 ^ la * 2 ^ (- (la - lb - 1))).
    { rewrite <- Z.pow_add_r by lia. f_equal. lia. }
    pose proof (Z.pow_pos_nonneg 2 (- (la - lb - 1)) ltac:(lia) ltac:(lia)) as Hpos.
    nia.
Qed.

Lemma quotient_exponent_small (a b : Z) :
  0 < a < 2 ^ 53 -> 0 < b < 2 ^ 1075 ->
  - 1074 <= quotient_exponent a b <= 0
  /\ b < 2 * 2 ^ (- quotient_exponent a b).
Proof.
  intros [Ha Ha53] [Hb Hb1075]. unfold quotient_exponent.
  set (d := Z.log2 a - Z.log2 b).
  assert (Hl : exists l, (if scaled_le b d a then d else d - 1) = l
                         /\ scaled_le b l a = true).
  { destruct (scaled_le b d a) eqn:Hd; eexists; (split; [reflexivity|]);
      [exact Hd | apply scaled_le_below; assumption]. }
  destruct Hl as (l & -> & Hl). unfold scaled_le in Hl.
  destruct (0 <=? l) eqn:Hsign;
    [apply Z.leb_le in Hsign|apply Z.leb_gt in Hsign]; apply Z.leb_le in Hl.
  - assert (Hl52 : l <= 52).
    { destruct (Z_le_gt_dec l 52) as [|Hbig]; [assumption|exfalso].
      pose proof (Z.pow_le_mono_r 2 53 l ltac:(lia) ltac:(lia)). nia. }
    split; [lia|].
    rewrite Z.max_l by lia.
    assert (Hpow : 2 ^ 53 = 2 ^ l * (2 * 2 ^ (- (l - 52)))).
    { change 2 with (2 ^ 1) at 3. rewrite <- !Z.pow_add_r by lia. f_equal. lia. }
    pose proof (Z.pow_pos_nonneg 2 l ltac:(lia) Hsign) as Hpos. nia.
  - split; [lia|].
    destruct (Z_le_gt_dec (- 1074) (l - 52)) as [Hnormal|Hsub].
    + rewrite Z.max_l by lia.
      assert (Hpow : 2 * 2 ^ (- (l - 52)) = 2 ^ 53 * 2 ^ (- l)).
      { change 2 with (2 ^ 1) at 1. rewrite <- !Z.pow_add_r by lia. f_equal. lia. }
      pose proof (Z.pow_pos_nonneg 2 (- l) ltac:(lia) ltac:(lia)) as Hpos. nia.
    + rewrite Z.max_r by lia.
      change (2 * 2 ^ (- - 1074)) with (2 ^ 1075). lia.
Qed.

(** Where the quotient of two integers is below 2^53 and the divisor
    is not astronomically large, the float quotient has the ceiling of
    the exact one. *)
Lemma int_truediv_ceil (a b : Z) :
  0 <= a < 2 ^ 53 -> 0 < b < 2 ^ 1075 ->
  exists x, int_truediv a b = Ok x /\ math_ceil x = ceil_div a b.
Proof.
  intros [Ha Ha53] [Hb Hb1075]. unfold int_truediv.
  rewrite (proj2 (Z.eqb_neq b 0)) by lia.
  destruct (a =? 0) eqn:Hzero; [apply Z.eqb_eq in Hzero|apply Z.eqb_neq in Hzero].
  - subst a. eexists. split; [reflexivity|]. reflexivity.
  - rewrite (Z.abs_eq a), (Z.abs_eq b) by lia.
    rewrite (Z.sgn_pos a), (Z.sgn_pos b) by lia.
    destruct (quotient_exponent_small a b ltac:(lia) ltac:(lia)) as [[He1 He2] Hfine].
    unfold nearest_float. cbn [significand exponent].
    set (e := quotient_exponent a b) in *.
    pose proof (Z.pow_pos_nonneg 2 (- e) ltac:(lia) ltac:(lia)) as Hs.
    pose proof (div_half_even_ceil a b (2 ^ (- e)) Hb Hs Hfine) as Hceil.
    assert (He : e = 0 \/ e < 0) by lia.
    destruct He as [He|He].
    + rewrite He in Hceil, Hfine |- *.
      change (2 ^ (- 0)) with 1 in Hceil. change (2 ^ 0) with 1.
      rewrite !Z.mul_1_r in *. rewrite !Z.mul_1_l.
      assert (Hone : forall x, ceil_div x 1 = x)
        by (intros x; unfold ceil_div; rewrite Z.div_1_r; lia).
      rewrite Hone in Hceil.
      pose proof (ceil_div_bounds a b Hb) as Hbound.
      assert (Hsmall : (2 ^ 1024 <=? div_half_even a b) = false).
      { apply Z.leb_gt. rewrite Hceil.
        apply Z.le_lt_trans with a; [nia|].
        apply Z.lt_trans with (2 ^ 53); [assumption|reflexivity]. }
      change (0 <=? 0) with true. cbn match.
      rewrite Hsmall. eexists. split; [reflexivity|].
      unfold math_ceil. cbn [significand exponent].
      change (0 <=? 0) with true. cbn match.
      change (2 ^ 0) with 1. rewrite Z.mul_1_r. exact Hceil.
    + rewrite (proj2 (Z.leb_gt 0 e)) by lia. cbn [andb].
      rewrite !Z.mul_1_l. eexists. split; [reflexivity|].
      unfold math_ceil. cbn [significand exponent].
      rewrite (proj2 (Z.leb_gt 0 e)) by lia. exact Hceil.
Qed.

Lemma pages_concat {A} (l : list A) (size pages : nat) :
  concat (map (fun k => take size (drop (k * size) l)) (seq 0 pages))
  = take (pages * size) l.
Proof.
  induction pages as [|n IH]; [reflexivity|].
  rewrite seq_S, map_app, concat_app, IH. cbn [map concat Nat.add].
  rewrite app_nil_r, take_take_drop. f_equal. lia.
Qed.

Section Service.
Context `{PyFloat} {ExampleResponse : Type}.
Variable validate : Item -> Result ExampleResponse.

Lemma validate_all_length (l : list Item) (rs : list ExampleResponse) :
  validate_all validate l = Ok rs -> length rs = length l.
Proof.
  revert rs. induction l as [|item rest IH]; cbn; intros rs Hrs.
  - now injection Hrs as <-.
  - destruct (validate item); [|discriminate].
    destruct (validate_all validate rest) as [rs'|]; [|discriminate].
    injection Hrs as <-. cbn. now rewrite (IH rs').
Qed.

Lemma validate_all_window (l : list Item) (rs : list ExampleResponse) (n m : nat) :
  validate_all validate l = Ok rs ->
  validate_all validate (take n (drop m l)) = Ok (take n (drop m rs)).
Proof.
  revert rs n m. induction l as [|item rest IH]; cbn; intros rs n m Hrs.
  - injection Hrs as <-. destruct n, m; reflexivity.
  - destruct (validate item) as [r|] eqn:Hv; [|discriminate].
    destruct (validate_all validate rest) as [rs'|] eqn:Hrest; [|discriminate].
    injection Hrs as <-. destruct m as [|m]; cbn.
    + destruct n as [|n]; cbn; [reflexivity|].
      rewrite Hv. specialize (IH rs' n 0%nat eq_refl).
      rewrite !drop_0 in IH. now rewrite IH.
    + apply IH. reflexivity.
Qed.

Ltac run_M :=
  unfold mbind, M_bind, bind, mret, M_ret, ret, now_isoformat, uuid4, logger_info,
    logger_emit;
  cbn -[insert union size].

(** Looks a key up in [update_data ∪ item]. *)
Ltac union_field :=
  first [ erewrite lookup_union_Some_l by (by simplify_map_eq); reflexivity
        | rewrite lookup_union_r by (by simplify_map_eq); reflexivity ].

(** X15. [update] of a key that is missing returns [None] and touches
    nothing, the clock included. For a stored item it writes exactly
    the fields the request set, [null] included, and a fresh
    [updated_at]; [id], [created_at] and every other entry of the item
    stay as they were, and so do the other items. *)
Theorem update_writes_only_set_fields (_storage : Storage) (example_id : N)
    (data : ExampleUpdate) (w : World) :
  match dict_get _storage example_id with
  | None => update validate _storage example_id data w = (Ok (_storage, Ok None), w)
  | Some item =>
      if bool_decide (size item = 0%nat)
      then update validate _storage example_id data w = (Ok (_storage, Ok None), w)
      else
        exists item' _storage' w',
          update validate _storage example_id data w
          = (Ok (_storage', match validate item' with
                            | Ok response => Ok (Some response)
                            | Raised e => Raised e
                            end), w')
          /\ dict_get _storage' example_id = Some item'
          /\ item' !! "updated_at" = Some (VTime (wall_clock w (wall_reads w)))
          /\ item' !! "name"
             = match set_name data with
               | Some v => Some (opt_str v) | None => item !! "name" end
          /\ item' !! "description"
             = match set_description data with
               | Some v => Some (opt_str v) | None => item !! "description" end
          /\ item' !! "is_active"
             = match set_is_active data with
               | Some v => Some (opt_bool v) | None => item !! "is_active" end
          /\ (forall key,
                key ∉ ["name"; "description"; "is_active"; "updated_at"] ->
                item' !! key = item !! key)
          /\ (forall other, other <> example_id ->
                dict_get _storage' other = dict_get _storage other)
  end.
Proof.
  unfold update.
  destruct (dict_get _storage example_id) as [item|] eqn:Hitem; [|reflexivity].
  destruct (bool_decide (size item = 0%nat)); [reflexivity|]. run_M.
  do 3 eexists. split; [reflexivity|].
  split; [apply ExampleServiceProps.dict_get_set_eq|].
  split; [by simplify_map_eq|].
  unfold model_dump_exclude_unset.
  destruct (set_name data) as [vn|], (set_description data) as [vd|],
    (set_is_active data) as [va|].
  all: repeat (split; [rewrite lookup_insert_ne by done; union_field|]).
  all: split; [|intros other Hne; now apply ExampleServiceProps.dict_get_set_ne].
  all: intros key Hkey; repeat (apply not_elem_of_cons in Hkey as [? Hkey]).
  all: rewrite lookup_insert_ne by done; union_field.
Qed.

(** A listing, within the range where the float quotient behind
    [total_pages] has the ceiling of the exact one. *)
Lemma page_of_listing (_storage : Storage) (page_number size : Z)
    (all : list ExampleResponse)
    (Hpage : 1 <= page_number) (Hsize : 1 <= size < 2 ^ 1075)
    (Hcount : Z.of_nat (length _storage) < 2 ^ 53)
    (Hvalid : validate_all validate (dict_values _storage) = Ok all) :
  list_examples validate _storage page_number size
  = Ok {| items := take (Z.to_nat size)
                     (drop (Z.to_nat ((page_number - 1) * size)) all);
          total := Z.of_nat (length _storage);
          page := page_number;
          page_size := size;
          total_pages := ceil_div (Z.of_nat (length _storage)) size |}.
Proof.
  unfold list_examples.
  rewrite slice_forward by nia.
  rewrite (validate_all_window _ _ _ _ Hvalid).
  unfold dict_values in *. rewrite length_map in *.
  destruct (int_truediv_ceil (Z.of_nat (length _storage)) size ltac:(lia) ltac:(lia))
    as (quotient & -> & ->).
  destruct (0 <? Z.of_nat (length _storage)) eqn:Hpos; [reflexivity|].
  apply Z.ltb_ge in Hpos.
  replace (Z.of_nat (length _storage)) with 0 by lia. reflexivity.
Qed.

(** X16. For a page number and a page size of at least one, and stored
    items that all validate, [list] returns the window of [page_size]
    responses that starts after the earlier pages, in insertion order,
    never more than [page_size] of them; [total] counts the stored
    items, [total_pages] is the least number of pages that holds them
    all, and a page beyond it is empty, not an error. [total_pages]
    comes from a float quotient, which has the ceiling of the exact one
    as long as fewer than 2^53 items are stored and the page size is
    below 2^1075. *)
Theorem list_examples_page (_storage : Storage) (page_number size : Z)
    (all : list ExampleResponse)
    (Hpage : 1 <= page_number) (Hsize : 1 <= size < 2 ^ 1075)
    (Hcount : Z.of_nat (length _storage) < 2 ^ 53)
    (Hvalid : validate_all validate (dict_values _storage) = Ok all) :
  exists response,
    list_examples validate _storage page_number size = Ok response
    /\ items response
       = take (Z.to_nat size) (drop (Z.to_nat ((page_number - 1) * size)) all)
    /\ total response = Z.of_nat (length _storage)
    /\ page response = page_number
    /\ page_size response = size
    /\ (total_pages response - 1) * size < total response <= total_pages response * size
    /\ (length (items response) <= Z.to_nat size)%nat
    /\ (total_pages response < page_number -> items response = []).
Proof.
  rewrite (page_of_listing _storage page_number size all Hpage Hsize Hcount Hvalid).
  pose proof (validate_all_length _ _ Hvalid) as Hlen.
  unfold dict_values in Hlen. rewrite length_map in Hlen.
  pose proof (ceil_div_bounds (Z.of_nat (length _storage)) size ltac:(lia)) as Hceil.
  eexists. split; [reflexivity|]. cbn [items total page page_size total_pages].
  repeat split; try lia.
  - rewrite length_take. lia.
  - intros Hbeyond. rewrite drop_ge; [apply take_nil|]. nia.
Qed.

(** X17. The pages [1] to [total_pages] of a listing, one after the
    other, are all the stored items, each once, in insertion order,
    where [total_pages] is what the listing itself reports, fewer than
    2^53 items are stored and the page size is below 2^1075. *)
Theorem pages_partition_storage (_storage : Storage) (size : Z)
    (all : list ExampleResponse)
    (Hsize : 1 <= size < 2 ^ 1075)
    (Hcount : Z.of_nat (length _storage) < 2 ^ 53)
    (Hvalid : validate_all validate (dict_values _storage) = Ok all) :
  exists first,
    list_examples validate _storage 1 size = Ok first
    /\ concat (map (fun k => page_items validate _storage (Z.of_nat k + 1) size)
                   (seq 0 (Z.to_nat (total_pages first))))
       = all.
Proof.
  pose proof (validate_all_length _ _ Hvalid) as Hlen.
  unfold dict_values in Hlen. rewrite length_map in Hlen.
  pose proof (ceil_div_bounds (Z.of_nat (length _storage)) size ltac:(lia)) as Hceil.
  rewrite (page_of_listing _storage 1 size all ltac:(lia) Hsize Hcount Hvalid).
  eexists. split; [reflexivity|]. cbn [total_pages].
  transitivity (concat (map (fun k => take (Z.to_nat size) (drop (k * Z.to_nat size) all))
                            (seq 0 (Z.to_nat (ceil_div (Z.of_nat (length _storage)) size))))).
  - f_equal. apply map_ext. intros k. unfold page_items.
    rewrite (page_of_listing _storage (Z.of_nat k + 1) size all
               ltac:(lia) Hsize Hcount Hvalid).
    cbn [items]. do 2 f_equal. nia.
  - rewrite pages_concat. apply take_ge. nia.
Qed.

(** X18. A page size of zero, which the service itself does not
    reject, makes [list] raise [ZeroDivisionError] as soon as one item
    is stored, whatever the page; on an empty storage it returns an
    empty listing with zero pages. *)
Theorem list_examples_zero_page_size (_storage : Storage) (page_number : Z) :
  list_examples validate _storage page_number 0
  = match _storage with
    | [] => Ok {| items := []; total := 0; page := page_number; page_size := 0;
                  total_pages := 0 |}
    | _ :: _ => Raised ZeroDivisionError
    end.
Proof.
  unfold list_examples. rewrite slice_empty_window. cbn.
  destruct _storage as [|entry rest]; reflexivity.
Qed.
End Service.

Lemma three_examples_valid :
  validate_all lenient (dict_values three_examples) = Ok (dict_values three_examples).
Proof. reflexivity. Qed.

(** The second page of two out of three stored examples holds the third. *)
Lemma list_examples_page_witness :
  1 <= 2 < 2 ^ 1075
  /\ Z.of_nat (length three_examples) < 2 ^ 53
  /\ validate_all lenient (dict_values three_examples) = Ok (dict_values three_examples)
  /\ exists response,
       list_examples lenient three_examples 2 2 = Ok response
       /\ items response = drop 2 (dict_values three_examples)
       /\ total response = 3
       /\ (total_pages response - 1) * 2 < total response <= total_pages response * 2.
Proof.
  assert (Hsize : 1 <= 2 < 2 ^ 1075) by (split; [lia|reflexivity]).
  assert (Hcount : Z.of_nat (length three_examples) < 2 ^ 53) by reflexivity.
  split; [exact Hsize|]. split; [exact Hcount|]. split; [exact three_examples_valid|].
  destruct (list_examples_page lenient three_examples 2 2 (dict_values three_examples)
              ltac:(lia) Hsize Hcount three_examples_valid)
    as (response & Hrun & Hitems & Htotal & _ & _ & Hpages & _).
  exists response. repeat split; try assumption; apply Hpages.
Defined.

(** Three stored examples in pages of two: two pages, all three items. *)
Lemma pages_partition_storage_witness :
  1 <= 2 < 2 ^ 1075
  /\ Z.of_nat (length three_examples) < 2 ^ 53
  /\ validate_all lenient (dict_values three_examples) = Ok (dict_values three_examples)
  /\ exists first,
       list_examples lenient three_examples 1 2 = Ok first
       /\ concat (map (fun k => page_items lenient three_examples (Z.of_nat k + 1) 2)
                      (seq 0 (Z.to_nat (total_pages first))))
          = dict_values three_examples.
Proof.
  assert (Hsize : 1 <= 2 < 2 ^ 1075) by (split; [lia|reflexivity]).
  assert (Hcount : Z.of_nat (length three_examples) < 2 ^ 53) by reflexivity.
  split; [exact Hsize|]. split; [exact Hcount|]. split; [exact three_examples_valid|].
  apply (pages_partition_storage lenient three_examples 2 (dict_values three_examples)
           Hsize Hcount three_examples_valid).
Defined.

(** Outside that range the count of pages can be wrong: with a page
    size of 10^400 the float quotient is zero, and the listing that
    holds all three items reports no page at all. *)
Example huge_page_size_reports_no_pages :
  match list_examples lenient three_examples 1 (10 ^ 400) with
  | Ok response =>
      length (items response) = 3%nat
      /\ total response = 3
      /\ total_pages response = 0
  | Raised _ => False
  end.
Proof. vm_compute. repeat split. Qed.
End ExampleListingProps.

(** ** Further properties: the assembled application *)
Module PipelineProps.
Import Middleware Main.

Ltac run_M :=
  unfold mbind, M_bind, bind, mret, M_ret, ret, raise, try_except, ctx_set,
    new_uuid4, perf_counter, logger_info, logger_emit, server_send, stream_send,
    send_response, SecurityHeadersMiddleware.send_wrapper;
  cbn -[received_response entering].

Ltac run_T :=
  unfold mbind, M_bind, bind, mret, M_ret, ret, raise;
  cbn -[received_response entering truthy].

Ltac decide_consts :=
  repeat match goal with
  | |- context [bool_decide (?a = ?b)] =>
      first [ rewrite (bool_decide_eq_true_2 (a = b)) by reflexivity
            | rewrite (bool_decide_eq_false_2 (a = b)) by discriminate ]
  end.

Lemma http_scope (scope : Scope) :
  scope_type scope = "http" -> bool_decide (scope_type scope ≠ "http") = false.
Proof. intros ->. reflexivity. Qed.

(** What [call_next] makes of the events it received, the first being
    the start of a response. *)
Lemma received_start (first : Message) (rest : list Message) :
  msg_type first = "http.response.start" ->
  received_response (first :: rest)
  = Ok {| status_code := Some (msg_status first);
          headers := default [] (msg_headers first);
          body := "";
          body_iterator := Some rest |}.
Proof.
  intros Hfirst. unfold received_response, is_response_start.
  rewrite Hfirst, bool_decide_eq_true_2 by reflexivity. reflexivity.
Qed.

Section Layers.
Context `{PyFloat}.
Variable scope : Scope.
Hypothesis Hhttp : scope_type scope = "http".

Lemma ServerErrorMiddleware_http (app : ASGIApp) (send : Send) (w : World) :
  ServerErrorMiddleware app scope send w
  = match app scope send w with
    | (Ok r, w') => (Ok r, w')
    | (Raised e, w') =>
        if isinstance_Exception e then
          if existsb is_response_start (drop (length (wire w)) (wire w'))
          then (Raised e, w')
          else (send_response (PlainTextResponse "Internal Server Error" 500 []) send;;
                raise e) w'
        else (Raised e, w')
    end.
Proof. unfold ServerErrorMiddleware. now rewrite (http_scope _ Hhttp). Qed.

Lemma BaseHTTPMiddleware_http dispatch (app : ASGIApp) (send : Send) :
  BaseHTTPMiddleware dispatch app scope send
  = (response ← dispatch (request_of_scope scope) (call_next app scope);
     send_response response send).
Proof. unfold BaseHTTPMiddleware. now rewrite (http_scope _ Hhttp). Qed.

Lemma CORSMiddleware_no_origin origins (app : ASGIApp) (send : Send) :
  headers_get (scope_headers scope) "origin" = None ->
  CORSMiddleware origins app scope send = app scope send.
Proof.
  intros Horigin. unfold CORSMiddleware.
  now rewrite (http_scope _ Hhttp), Horigin.
Qed.

Lemma SecurityHeadersMiddleware_http (app : ASGIApp) (send : Send) :
  SecurityHeadersMiddleware.call app scope send
  = app scope (SecurityHeadersMiddleware.send_wrapper send).
Proof. unfold SecurityHeadersMiddleware.call. now rewrite (http_scope _ Hhttp). Qed.

Lemma ExceptionMiddleware_http (app : ASGIApp) (send : Send) :
  ExceptionMiddleware app scope send
  = try_except (app scope send)
      (fun e => match default_handler e with
                | Some response => send_response response send
                | None => raise e
                end).
Proof. unfold ExceptionMiddleware. now rewrite (http_scope _ Hhttp). Qed.

(** The correlation middleware: assign the identifier, run the rest,
    stamp the response. *)
Lemma dispatch_enters (call_next : CallNext) (w : World) :
  CorrelationIdMiddleware.dispatch (request_of_scope scope) call_next w
  = match call_next (request_of_scope scope) (entering scope w) with
    | (Ok response, w2) =>
        (Ok (set_header CorrelationIdMiddleware.HEADER_NAME (request_id scope w)
               response), w2)
    | (Raised e, w2) => (Raised e, w2)
    end.
Proof.
  unfold CorrelationIdMiddleware.dispatch, or_else, entering, request_id,
    after_generating, generated_id.
  cbn [req_headers request_of_scope].
  destruct (headers_get _ _) as [v|]; [destruct (truthy v)|];
    unfold mbind, M_bind, bind, mret, M_ret, ret, ctx_set, new_uuid4; reflexivity.
Qed.

Lemma entering_facts (w : World) :
  correlation_id_ctx (entering scope w) = request_id scope w
  /\ request_id scope w <> ""
  /\ wire (entering scope w) = wire w
  /\ log (entering scope w) = log w
  /\ stream (entering scope w) = stream w.
Proof.
  unfold entering, request_id, after_generating.
  destruct (headers_get _ _) as [v|]; [destruct (truthy v) eqn:Hv|]; cbn;
    repeat split; try apply str_uuid4_nonempty.
  exact (LoggingProps.truthy_true_nonempty _ Hv).
Qed.
End Layers.

(** Runs [served] down to the point where the endpoint has been awaited. *)
Ltac run_served scope w endpoint Hhttp Horigin Hend :=
  unfold served, create_app, build_middleware_stack, add_middleware;
  cbn [foldr app];
  rewrite (ServerErrorMiddleware_http scope Hhttp);
  unfold TraceMiddleware;
  rewrite (BaseHTTPMiddleware_http scope Hhttp);
  unfold mbind at 1, M_bind at 1, bind at 1;
  rewrite (dispatch_enters scope);
  unfold call_next at 1;
  rewrite (BaseHTTPMiddleware_http scope Hhttp);
  unfold call_next at 1;
  rewrite (CORSMiddleware_no_origin scope Hhttp _ _ _ Horigin);
  rewrite (SecurityHeadersMiddleware_http scope Hhttp);
  rewrite (ExceptionMiddleware_http scope Hhttp);
  unfold endpoint_route, RequestLoggingMiddleware.dispatch;
  run_M;
  match goal with |- context [endpoint ?W] =>
    change W with (endpoint_world scope w) end;
  rewrite Hend; run_M.

(** The whole stack on a request without [Origin] header, by what the
    endpoint does. *)
Lemma pipeline_outcome `{PyFloat} (cors_origins : list string) (endpoint : M Response)
    (scope : Scope) (w : World)
    (Hhttp : scope_type scope = "http")
    (Horigin : headers_get (scope_headers scope) "origin" = None)
    (Hframe : leaves_transport endpoint) :
  match endpoint (endpoint_world scope w) with
  | (Ok response, _) =>
      body_iterator response = None ->
      exists w',
        served cors_origins endpoint scope w = (Ok tt, w')
        /\ wire w' = (wire w ++ secured_events response (request_id scope w))%list
  | (Raised e, _) =>
      isinstance_Exception e = true ->
      match default_handler e with
      | Some handled =>
          exists w',
            served cors_origins endpoint scope w = (Ok tt, w')
            /\ wire w' = (wire w ++ secured_events handled (request_id scope w))%list
      | None =>
          exists w',
            served cors_origins endpoint scope w = (Raised e, w')
            /\ wire w' = (wire w ++ server_error_events)%list
      end
  end.
Proof.
  destruct (entering_facts scope w) as (_ & _ & Hwire & _ & _).
  destruct (Hframe (endpoint_world scope w)) as [Hs Hw].
  destruct (endpoint (endpoint_world scope w)) as [[response|e] w1] eqn:Hend;
    [intros Hplain|intros Hexc; destruct (default_handler e) as [handled|] eqn:Hhandler].
  all: cbn -[entering] in Hs, Hw.
  - run_served scope w endpoint Hhttp Horigin Hend.
    rewrite Hplain. decide_consts. cbn -[received_response entering].
    rewrite Hs. cbn -[received_response entering].
    rewrite received_start by reflexivity. cbn -[received_response entering].
    destruct (negb (String.prefix "/health" (scope_path scope)));
      cbn -[received_response entering].
    all: unfold is_response_body; decide_consts; cbn -[received_response entering truthy].
    all: destruct (truthy (body response)) eqn:Hbody; run_T.
    all: rewrite received_start by reflexivity; run_T.
    all: unfold is_response_body; decide_consts; run_T.
    all: rewrite ?Hbody, ?LoggingProps.truthy_empty; run_T.
    all: rewrite ?LoggingProps.truthy_empty; run_T.
    all: eexists; split; [reflexivity|]; cbn -[entering truthy].
    all: unfold secured_events, streamed_body; rewrite Hbody, Hw, Hwire.
    all: cbn -[entering truthy]; rewrite <- ?app_assoc; reflexivity.
  - assert (Hplain : body_iterator handled = None).
    { revert Hhandler. unfold default_handler.
      repeat case_bool_decide; intros [= <-]; reflexivity. }
    run_served scope w endpoint Hhttp Horigin Hend.
    rewrite Hexc, Hhandler. run_M. rewrite Hplain. decide_consts.
    cbn -[received_response entering].
    rewrite Hs. cbn -[received_response entering].
    rewrite received_start by reflexivity. cbn -[received_response entering].
    destruct (negb (String.prefix "/health" (scope_path scope)));
      cbn -[received_response entering].
    all: unfold is_response_body; decide_consts; cbn -[received_response entering truthy].
    all: destruct (truthy (body handled)) eqn:Hbody; run_T.
    all: rewrite received_start by reflexivity; run_T.
    all: unfold is_response_body; decide_consts; run_T.
    all: rewrite ?Hbody, ?LoggingProps.truthy_empty; run_T.
    all: rewrite ?LoggingProps.truthy_empty; run_T.
    all: eexists; split; [reflexivity|]; cbn -[entering truthy].
    all: unfold secured_events, streamed_body; rewrite Hbody, Hw, Hwire.
    all: cbn -[entering truthy]; rewrite <- ?app_assoc; reflexivity.
  - run_served scope w endpoint Hhttp Horigin Hend.
    rewrite Hexc, Hhandler. run_M. rewrite Hexc.
    rewrite Hw, Hwire, drop_all. cbn -[entering].
    eexists. split; [reflexivity|]. cbn -[entering].
    rewrite <- app_assoc. reflexivity.
Qed.

Lemma setitem_keeps_others (l : HeaderList) key value (entry : string * string) :
  entry ∈ l -> entry.1 <> lower key -> entry ∈ headers_setitem l key value.
Proof.
  intros Hin Hname.
  assert (Hother : entry ∈ other_headers (headers_setitem l key value) (lower key)).
  { rewrite (proj2 (MiddlewareMoreProps.headers_setitem_single l key value)).
    unfold other_headers. apply list_elem_of_filter. split; assumption. }
  unfold other_headers in Hother. apply list_elem_of_filter in Hother. tauto.
Qed.

(** X19. For a request without [Origin] header, the response with a
    body that the endpoint returns, or that the exception middleware
    makes of an [HTTPException] or a validation error it raises, reaches
    the client streamed, as the two [BaseHTTPMiddleware] layers pass it
    on: a start event, then the body as one chunk with [more_body] set
    unless it is empty, then a closing empty body. The start event has
    the same status, every header the response had under another name
    than [x-correlation-id], all six security headers, and the request's
    correlation identifier, which is never empty. *)
Theorem produced_response_leaves_secured `{PyFloat} (cors_origins : list string)
    (endpoint : M Response) (scope : Scope) (w : World) (response : Response)
    (Hhttp : scope_type scope = "http")
    (Horigin : headers_get (scope_headers scope) "origin" = None)
    (Hframe : leaves_transport endpoint)
    (Hproduced : produced endpoint scope w response)
    (Hbody : body_iterator response = None) :
  exists w' start,
    served cors_origins endpoint scope w = (Ok tt, w')
    /\ wire w' = (wire w ++ start :: streamed_body (body response))%list
    /\ msg_type start = "http.response.start"
    /\ msg_status start = default 200 (status_code response)
    /\ Forall (carries start) SecurityHeadersMiddleware.security_headers
    /\ headers_get (default [] (msg_headers start)) CorrelationIdMiddleware.HEADER_NAME
       = Some (request_id scope w)
    /\ request_id scope w <> ""
    /\ (forall entry, entry ∈ headers response -> entry.1 <> "x-correlation-id" ->
          carries start entry).
Proof.
  pose proof (pipeline_outcome cors_origins endpoint scope w Hhttp Horigin Hframe)
    as Hout.
  assert (Hrun : exists w',
             served cors_origins endpoint scope w = (Ok tt, w')
             /\ wire w' = (wire w ++ secured_events response (request_id scope w))%list).
  { destruct Hproduced as [Hok | (e & Hraised & Hexc & Hhandled)];
      destruct (endpoint (endpoint_world scope w)) as [[r|e'] w1]; cbn in *;
      try discriminate.
    - injection Hok as ->. exact (Hout Hbody).
    - injection Hraised as ->. rewrite Hhandled in Hout. exact (Hout Hexc). }
  destruct Hrun as (w' & Hrun & Hwire).
  destruct (entering_facts scope w) as (_ & Hne & _).
  eexists w', _. split; [exact Hrun|]. split; [exact Hwire|].
  cbn. repeat split; auto.
  - apply Forall_forall. intros entry Hin. unfold carries. cbn.
    apply setitem_keeps_others; [apply elem_of_app; now right|].
    revert Hin. unfold SecurityHeadersMiddleware.security_headers.
    rewrite !elem_of_cons, elem_of_nil. intros [->|[->|[->|[->|[->|[->|[]]]]]]];
      discriminate.
  - apply headers_get_setitem.
  - intros entry Hin Hname. unfold carries. cbn.
    apply setitem_keeps_others; [apply elem_of_app; now left | exact Hname].
Qed.

Lemma produced_response_leaves_secured_witness :
  let scope := http_get "/api/v1/examples" [("x-correlation-id", "req-42")] in
  scope_type scope = "http"
  /\ headers_get (scope_headers scope) "origin" = None
  /\ leaves_transport (H := Q_float) (mret plain_response)
  /\ produced (H := Q_float) (mret plain_response) scope quiet_world plain_response
  /\ body_iterator plain_response = None
  /\ exists w' start,
       served ["*"] (mret plain_response) scope quiet_world = (Ok tt, w')
       /\ wire w' = start :: streamed_body "{}"
       /\ msg_status start = 200
       /\ headers_get (default [] (msg_headers start)) "X-Correlation-ID" = Some "req-42".
Proof.
  intros scope.
  assert (Hframe : leaves_transport (H := Q_float) (mret plain_response))
    by (intros w0; split; reflexivity).
  assert (Hprod : produced (H := Q_float) (mret plain_response) scope quiet_world
                    plain_response) by (left; reflexivity).
  split; [reflexivity|]. split; [reflexivity|]. split; [exact Hframe|].
  split; [exact Hprod|]. split; [reflexivity|].
  destruct (produced_response_leaves_secured ["*"] (mret plain_response) scope
              quiet_world plain_response eq_refl eq_refl Hframe Hprod eq_refl)
    as (w' & start & Hrun & Hwire & _ & Hstatus & _ & Hid & _).
  exists w', start. repeat split; assumption.
Defined.

(** X20. For a request without [Origin] header, an exception of the
    endpoint that no default handler takes ([AppException] and its
    subclasses among them) comes back out of the application, and the
    client gets the bare reply of the outermost layer: status 500, the
    plain text [Internal Server Error], no security header and no
    correlation identifier. The exception is an instance of
    [Exception], as every exception class of the service is. *)
Theorem unhandled_exception_gets_bare_500 `{PyFloat} (cors_origins : list string)
    (endpoint : M Response) (scope : Scope) (w : World) (e : Exception)
    (Hhttp : scope_type scope = "http")
    (Horigin : headers_get (scope_headers scope) "origin" = None)
    (Hframe : leaves_transport endpoint)
    (Hraised : (endpoint (endpoint_world scope w)).1 = Raised e)
    (Hexception : isinstance_Exception e = true)
    (Hunhandled : default_handler e = None) :
  exists w' start content,
    served cors_origins endpoint scope w = (Raised e, w')
    /\ wire w' = (wire w ++ [start; content])%list
    /\ msg_status start = 500
    /\ msg_body content = "Internal Server Error"
    /\ Forall (fun header => ~ carries start header)
              SecurityHeadersMiddleware.security_headers
    /\ headers_get (default [] (msg_headers start)) CorrelationIdMiddleware.HEADER_NAME
       = None.
Proof.
  pose proof (pipeline_outcome cors_origins endpoint scope w Hhttp Horigin Hframe)
    as Hout.
  destruct (endpoint (endpoint_world scope w)) as [[r|e'] w1]; cbn in Hraised;
    [discriminate|].
  injection Hraised as ->. specialize (Hout Hexception). rewrite Hunhandled in Hout.
  destruct Hout as (w' & Hrun & Hwire).
  eexists w', _, _. split; [exact Hrun|]. split; [exact Hwire|].
  cbn. repeat split.
  unfold carries. cbn.
  repeat constructor; intros Hin;
    repeat (apply elem_of_cons in Hin as [Hin|Hin]; [discriminate|]);
    inversion Hin.
Qed.

Lemma unhandled_exception_gets_bare_500_witness :
  let scope := http_get "/api/v1/examples/7" [] in
  let e := AppErrors.as_exception (AppErrors.NotFoundError "Example" "7") in
  scope_type scope = "http"
  /\ headers_get (scope_headers scope) "origin" = None
  /\ leaves_transport (H := Q_float) (raise e : M Response)
  /\ isinstance_Exception e = true
  /\ default_handler e = None
  /\ exists w' start content,
       served ["*"] (raise e) scope quiet_world = (Raised e, w')
       /\ wire w' = [start; content]
       /\ msg_status start = 500.
Proof.
  intros scope e.
  assert (Hframe : leaves_transport (H := Q_float) (raise e : M Response))
    by (intros w0; split; reflexivity).
  split; [reflexivity|]. split; [reflexivity|]. split; [exact Hframe|].
  split; [reflexivity|]. split; [reflexivity|].
  destruct (unhandled_exception_gets_bare_500 ["*"] (raise e) scope quiet_world e
              eq_refl eq_refl Hframe eq_refl eq_refl eq_refl)
    as (w' & start & content & Hrun & Hwire & Hstatus & _).
  exists w', start, content. repeat split; assumption.
Defined.
End PipelineProps.

(** ** Further properties: configuration parsing *)
Module ConfigProps.
Import Config.

Lemma split_on_nonempty sep s : split_on sep s <> [].
Proof.
  destruct s as [|c rest]; cbn [split_on]; [discriminate|].
  destruct (bool_decide (c = sep)); [discriminate|].
  destruct (split_on sep rest); discriminate.
Qed.

Lemma split_on_length sep (s : list N) :
  length (split_on sep s) = S (length (filter (fun c => c = sep) s)).
Proof.
  unfold Str in *. induction s as [|c rest IH]; cbn [split_on]; [reflexivity|].
  pose proof (split_on_nonempty sep rest) as Hne.
  destruct (decide (c = sep)) as [->|Hc].
  - rewrite bool_decide_eq_true_2, filter_cons_True by reflexivity.
    cbn. now rewrite IH.
  - rewrite bool_decide_eq_false_2, filter_cons_False by exact Hc.
    destruct (split_on sep rest) as [|piece pieces]; [contradiction|].
    exact IH.
Qed.

Lemma split_on_no_sep sep s : Forall (fun piece => sep ∉ piece) (split_on sep s).
Proof.
  induction s as [|c rest IH]; cbn [split_on].
  - repeat constructor. apply not_elem_of_nil.
  - destruct (decide (c = sep)) as [->|Hc].
    + rewrite bool_decide_eq_true_2 by reflexivity.
      constructor; [apply not_elem_of_nil|exact IH].
    + rewrite bool_decide_eq_false_2 by exact Hc.
      destruct (split_on sep rest) as [|piece pieces].
      * repeat constructor. rewrite not_elem_of_cons. split; [congruence|apply not_elem_of_nil].
      * inversion IH as [|? ? Hpiece Hpieces]; subst.
        constructor; [|exact Hpieces].
        rewrite not_elem_of_cons. split; [congruence|exact Hpiece].
Qed.

Lemma split_on_clean sep s : sep ∉ s -> split_on sep s = [s].
Proof.
  induction s as [|c rest IH]; cbn [split_on]; [reflexivity|].
  rewrite not_elem_of_cons. intros [Hc Hrest].
  rewrite bool_decide_eq_false_2 by congruence. now rewrite (IH Hrest).
Qed.

Lemma split_on_app sep piece rest :
  sep ∉ piece ->
  split_on sep (piece ++ sep :: rest)%list = piece :: split_on sep rest.
Proof.
  induction piece as [|c piece IH]; cbn [app split_on].
  - intros _. now rewrite bool_decide_eq_true_2.
  - rewrite not_elem_of_cons. intros [Hc Hpiece].
    rewrite bool_decide_eq_false_2 by congruence. now rewrite (IH Hpiece).
Qed.

Lemma split_on_join sep (pieces : list Str) :
  pieces <> [] ->
  Forall (fun piece => sep ∉ piece) pieces ->
  split_on sep (join sep pieces) = pieces.
Proof.
  induction pieces as [|piece [|next pieces] IH]; intros Hne Hclean.
  - contradiction.
  - cbn. apply split_on_clean. now inversion Hclean.
  - inversion Hclean as [|? ? Hpiece Hrest]; subst.
    change (join sep (piece :: next :: pieces))
      with (piece ++ sep :: join sep (next :: pieces))%list.
    rewrite split_on_app by exact Hpiece.
    now rewrite IH.
Qed.

Lemma lstrip_suffix s : lstrip s `suffix_of` s.
Proof.
  induction s as [|c rest IH]; cbn [lstrip]; [reflexivity|].
  destruct (isspace c); [|reflexivity].
  now apply suffix_cons_r.
Qed.

Lemma lstrip_head s c : head (lstrip s) = Some c -> isspace c = false.
Proof.
  induction s as [|c0 rest IH]; cbn [lstrip]; [discriminate|].
  destruct (isspace c0) eqn:Hc0; [exact IH|].
  cbn. now intros [= <-].
Qed.

Lemma lstrip_id s :
  (forall c, head s = Some c -> isspace c = false) -> lstrip s = s.
Proof.
  destruct s as [|c rest]; cbn; [reflexivity|].
  intros Hhead. now rewrite (Hhead c eq_refl).
Qed.

Lemma rstrip_prefix s : rstrip s `prefix_of` s.
Proof.
  induction s as [|c rest IH]; cbn [rstrip]; [reflexivity|].
  destruct (rstrip rest) as [|k kept].
  - destruct (isspace c); [apply prefix_nil|].
    apply prefix_cons, prefix_nil.
  - now apply prefix_cons.
Qed.

Lemma rstrip_last s c : last (rstrip s) = Some c -> isspace c = false.
Proof.
  induction s as [|c0 rest IH]; cbn [rstrip]; [discriminate|].
  destruct (rstrip rest) as [|k kept].
  - destruct (isspace c0) eqn:Hc0; [discriminate|]. cbn. now intros [= <-].
  - exact IH.
Qed.

Lemma rstrip_head s c :
  head s = Some c -> isspace c = false -> head (rstrip s) = Some c.
Proof.
  destruct s as [|c0 rest]; cbn [head rstrip]; [discriminate|].
  intros [= ->] Hc. destruct (rstrip rest); [now rewrite Hc|reflexivity].
Qed.

Lemma rstrip_id s :
  (forall c, last s = Some c -> isspace c = false) -> rstrip s = s.
Proof.
  induction s as [|c rest IH]; cbn [rstrip]; [reflexivity|].
  intros Hlast. destruct rest as [|c1 rest].
  - cbn. now rewrite (Hlast c eq_refl).
  - rewrite IH by exact Hlast. reflexivity.
Qed.

Lemma strip_trimmed s : trimmed (strip s).
Proof.
  unfold strip. split; [|apply rstrip_last].
  intros c Hhead.
  destruct (lstrip s) as [|c0 rest] eqn:Hl; [discriminate Hhead|].
  assert (Hc0 : isspace c0 = false) by (apply (lstrip_head s); now rewrite Hl).
  rewrite (rstrip_head (c0 :: rest) c0 eq_refl Hc0) in Hhead.
  now injection Hhead as <-.
Qed.

Lemma strip_id s : trimmed s -> strip s = s.
Proof.
  intros [Hhead Hlast]. unfold strip. rewrite lstrip_id by exact Hhead.
  now apply rstrip_id.
Qed.

Lemma strip_no_sep sep s : sep ∉ s -> sep ∉ strip s.
Proof.
  intros Hs Hin. apply Hs. unfold strip in Hin.
  destruct (rstrip_prefix (lstrip s)) as [tail Htail].
  destruct (lstrip_suffix s) as [front Hfront].
  rewrite Hfront, Htail. set_solver.
Qed.

(** X21. Read from a list, [cors_origins] is the list as it is. Read
    from a string it has one entry per comma-separated piece, so never
    none, and every entry is clean: no comma in it, no whitespace, in
    Python's Unicode sense, at either end. Origins that are clean
    already come back unchanged when they are joined with commas and
    parsed, so that parsing what was parsed changes nothing. *)
Theorem parse_cors_origins_round_trip :
  (forall origins, parse_cors_origins (inr origins) = origins)
  /\ (forall text,
        length (parse_cors_origins (inl text))
        = S (length (filter (fun c => c = COMMA) text))
        /\ Forall clean (parse_cors_origins (inl text)))
  /\ (forall origins,
        origins <> [] -> Forall clean origins ->
        parse_cors_origins (inl (join COMMA origins)) = origins)
  /\ (forall text,
        parse_cors_origins (inl (join COMMA (parse_cors_origins (inl text))))
        = parse_cors_origins (inl text)).
Proof.
  assert (Hparsed : forall text, Forall clean (parse_cors_origins (inl text))).
  { intros text. unfold parse_cors_origins. apply Forall_fmap.
    eapply Forall_impl; [apply split_on_no_sep|].
    intros piece Hpiece. split; [now apply strip_no_sep|apply strip_trimmed]. }
  assert (Hback : forall origins,
             origins <> [] -> Forall clean origins ->
             parse_cors_origins (inl (join COMMA origins)) = origins).
  { intros origins Hsome Hclean. unfold parse_cors_origins.
    rewrite split_on_join.
    - clear Hsome. induction Hclean as [|origin rest [_ Htrim] _ IH]; cbn;
        [reflexivity|]. now rewrite (strip_id _ Htrim), IH.
    - exact Hsome.
    - eapply Forall_impl; [exact Hclean|]. intros origin [Hcomma _]. exact Hcomma. }
  split; [reflexivity|]. split; [|split; [exact Hback|]].
  - intros text. split; [|apply Hparsed].
    unfold parse_cors_origins. now rewrite length_map, split_on_length.
  - intros text. apply Hback; [|apply Hparsed].
    unfold parse_cors_origins. intros Hnil. apply fmap_nil_inv in Hnil.
    now apply split_on_nonempty in Hnil.
Qed.

(** Spaces around the commas are stripped, the no-break space U+00A0
    among them. *)
Example cors_origins_with_spaces :
  parse_cors_origins
    (inl (str " https://a.example ," ++ 160%N :: str "https://b.example")%list)
  = [str "https://a.example"; str "https://b.example"].
Proof. reflexivity. Qed.

(** The empty string gives the one origin [""]. *)
Example cors_origins_of_empty_string : parse_cors_origins (inl []) = [[]].
Proof. reflexivity. Qed.
End ConfigProps.
